(** * news_signal_ollama: headline -> trading signal pipeline

    A shallow embedding of [src/news_signal_ollama.py] and the properties of
    its validator, interpreter and CSV recorder.

    Python values are an inductive type, a [dict] is a finite map with string
    keys, a [float] is an IEEE-754 binary64 number in the representation of
    the Standard Library's [SpecFloat], and an [int] is an unbounded [Z].
    Console output and the file system are an explicit [world] threaded
    through a small state-and-exception monad.

    What the program takes from outside is an argument of the model: the
    decoder [json.loads], the reply of the backend, the time of the clock,
    the lines that [input] reads and the methods [str.strip] and
    [str.lower].

    A Python string is the sequence of the bytes of its UTF-8 encoding.  A
    lone surrogate has no such encoding: it is kept as the three bytes
    [ED A0..BF 80..BF] that stand for it, and a string that holds one is
    not [encodable].  The console and the log are streams with the
    encoding utf-8 and strict errors: writing a string that is not
    encodable raises [UnicodeEncodeError].  The literals of the program and
    the text of the reply of the backend are taken to be encodable.

    A path names a regular file, a directory, nothing, or nothing below a
    directory that does not exist.  What depends on the machine alone is
    taken to be in order: the console takes UTF-8, a regular file can be
    read and appended to, the device has room for what is written, and the
    interpreter puts no limit on the digits of an [int] that [str()]
    converts (an [int] that [json.loads] has decoded is within such a limit
    in any case). *)

From Stdlib Require Import ZArith String Ascii SpecFloat Lia.
From stdpp Require Import base option list gmap strings.

#[local] Set Warnings "-register-all".
#[local] Open Scope Z_scope.

(** ** Python values *)

Inductive pyvalue : Type :=
  | PyNone
  | PyBool (b : bool)
  | PyInt (n : Z)
  | PyFloat (x : spec_float)
  | PyStr (s : string)
  | PyList (items : list pyvalue)
  | PyDict (entries : gmap string pyvalue).

(** A [dict] whose keys are strings, as [json.loads] builds them. *)
Abbreviation pydict := (gmap string pyvalue).

(** The exceptions that the modelled code can meet. *)
Inductive exn : Type :=
  | KeyError (key : string)
  | AttributeError
  | TypeError
  | ValueError
  | OverflowError
  | JSONDecodeError
  | RecursionError
  | FileNotFoundError
  | IsADirectoryError
  | BackendError
  | UnicodeEncodeError.

#[global] Instance exn_eq_dec : EqDecision exn.
Proof. solve_decision. Defined.

(** The result of evaluating a Python expression or call. *)
Inductive outcome (A : Type) : Type :=
  | Returns (a : A)
  | Raises (e : exn).
Arguments Returns {A} a.
Arguments Raises {A} e.

Definition obind {A B : Type} (o : outcome A) (k : A -> outcome B) : outcome B :=
  match o with
  | Returns a => k a
  | Raises e => Raises e
  end.

(** ** Text that a stream with the encoding utf-8 takes *)

Definition byte_code (c : ascii) : Z := Z.of_nat (nat_of_ascii c).

(** The byte [c] followed by [r] begins a surrogate: [ED] and then a byte
    from [A0] to [BF]. *)
Definition surrogate_at (c : ascii) (r : string) : bool :=
  (byte_code c =? 237) &&
  match r with
  | String c' _ => (160 <=? byte_code c') && (byte_code c' <=? 191)
  | EmptyString => false
  end.

(** [s.encode("utf-8")] succeeds: [s] holds no surrogate. *)
Fixpoint encodable (s : string) : bool :=
  match s with
  | EmptyString => true
  | String c r => negb (surrogate_at c r) && encodable r
  end.

(** ** Console output and files *)

(** One piece of a printed line.  [Lit s] is literal text, [StrOf v] is
    [str(v)] and [Fixed2 x] is the float [x] rendered by the format
    specification [.2f]; the digits of the last two are left symbolic. *)
Inductive fragment : Type :=
  | Lit (s : string)
  | StrOf (v : pyvalue)
  | Fixed2 (x : spec_float).

(** The argument of one call of [print]. *)
Abbreviation line := (list fragment).

(** A field of a CSV record as [csv.writer] receives it: text, or a value
    that is neither [None] nor a string, written as its [str()]. *)
Inductive cell : Type :=
  | CellText (s : string)
  | CellStr (v : pyvalue).

Abbreviation record := (list cell).

(** What a path of the file system names, a path that names nothing being
    absent from the map [files] below.  The bytes of a regular file are the
    text [start], which is any text, also one whose last line has no
    terminator, followed by the records [content] that were written behind
    it, each as one line with its terminator.  [NoParent] is a path that
    names nothing and whose directory does not exist, so that no file can be
    created there. *)
Inductive node : Type :=
  | RegularFile (start : string) (content : list record)
  | Directory
  | NoParent.

(** Whether the stream takes the piece: the [str()] of a string is the
    string itself, that of any other value is ASCII digits and letters or a
    [repr], which escapes a surrogate. *)
Definition fragment_encodable (f : fragment) : bool :=
  match f with
  | StrOf (PyStr s) => encodable s
  | _ => true
  end.

Definition cell_encodable (c : cell) : bool :=
  match c with
  | CellText s => encodable s
  | CellStr _ => true
  end.

Definition line_encodable (l : line) : bool := forallb fragment_encodable l.

Definition record_encodable (r : record) : bool := forallb cell_encodable r.

Record world : Type := World {
  stdout : list line;
  files : gmap string node
}.

(** ** The state-and-exception monad of the program *)

Definition io (A : Type) : Type := world -> outcome A * world.

Definition ret {A : Type} (a : A) : io A := fun w => (Returns a, w).

Definition raise {A : Type} (e : exn) : io A := fun w => (Raises e, w).

Definition bind {A B : Type} (c : io A) (k : A -> io B) : io B :=
  fun w =>
    match c w with
    | (Returns a, w') => k a w'
    | (Raises e, w') => (Raises e, w')
    end.

Definition lift {A : Type} (o : outcome A) : io A := fun w => (o, w).

Notation "'let!' x ':=' c 'in' k" := (bind c (fun x => k))
  (at level 10, x name, c at level 100, k at level 200).
Notation "c ';;;' k" := (bind c (fun _ => k))
  (at level 100, k at level 200, right associativity).

(** [print(...)]: one more entry of the console, or [UnicodeEncodeError]
    and nothing written when the text cannot be encoded. *)
Definition print (l : line) : io unit :=
  fun w =>
    if line_encodable l then (Returns tt, World (stdout w ++ [l]) (files w))
    else (Raises UnicodeEncodeError, w).

(** The world after the lines [ls] were printed. *)
Definition emit (ls : list line) (w : world) : world :=
  World (stdout w ++ ls) (files w).

(** ** Dictionaries and comparisons *)

(** [v[k]] for a string [k]: the value of a [dict], or [KeyError]; the other
    types are not subscriptable, or take no string index. *)
Definition getitem (v : pyvalue) (k : string) : outcome pyvalue :=
  match v with
  | PyDict d =>
      match d !! k with
      | Some x => Returns x
      | None => Raises (KeyError k)
      end
  | _ => Raises TypeError
  end.

(** [v.get(k)]: the value of a [dict], or [None]; the other types have no
    such method. *)
Definition get (v : pyvalue) (k : string) : outcome pyvalue :=
  match v with
  | PyDict d => Returns (default PyNone (d !! k))
  | _ => Raises AttributeError
  end.

(** [v.keys()]: only a [dict] has the attribute. *)
Definition keys (v : pyvalue) : outcome (gset string) :=
  match v with
  | PyDict d => Returns (dom d)
  | _ => Raises AttributeError
  end.

(** [a.issubset(b)]. *)
Definition issubset (a b : gset string) : bool := bool_decide (a ⊆ b).

(** [v == s] for a string literal [s]: among the values that JSON decoding
    produces only an equal string compares equal to a string. *)
Definition eq_str (v : pyvalue) (s : string) : bool :=
  match v with
  | PyStr t => bool_decide (t = s)
  | _ => false
  end.

(** ** Floating point *)

Abbreviation prec := 53 (only parsing).
Abbreviation emax := 1024 (only parsing).

(** [float(n)] for an [int]: rounding to the nearest binary64, ties to even;
    an [int] that rounds beyond the largest finite float raises. *)
Definition float_of_int (n : Z) : outcome spec_float :=
  match binary_normalize prec emax n 0 false with
  | S754_infinity _ => Raises OverflowError
  | x => Returns x
  end.

(** The exact comparison [n < x] of an [int] with a [float]. *)
Definition int_lt_float (n : Z) (x : spec_float) : bool :=
  match x with
  | S754_nan => false
  | S754_infinity s => negb s
  | S754_zero _ => n <? 0
  | S754_finite s m e =>
      let v := if s then Z.neg m else Z.pos m in
      if 0 <=? e then n <? v * 2 ^ e else n * 2 ^ (- e) <? v
  end.

(** [v < x] for a float [x]; [bool] is a subclass of [int]. *)
Definition lt_float (v : pyvalue) (x : spec_float) : outcome bool :=
  match v with
  | PyFloat y => Returns (SFltb y x)
  | PyInt n => Returns (int_lt_float n x)
  | PyBool b => Returns (int_lt_float (Z.b2z b) x)
  | _ => Raises TypeError
  end.

(** [f"{v:.2f}"]: an [int] or [bool] is converted to [float] first; a string
    rejects the format code, every other type rejects a non-empty format
    specification. *)
Definition format_2f (v : pyvalue) : outcome fragment :=
  match v with
  | PyFloat x => Returns (Fixed2 x)
  | PyInt n => obind (float_of_int n) (fun x => Returns (Fixed2 x))
  | PyBool b => obind (float_of_int (Z.b2z b)) (fun x => Returns (Fixed2 x))
  | PyStr _ => Raises ValueError
  | PyNone | PyList _ | PyDict _ => Raises TypeError
  end.

(** The literal [0.6]: the binary64 number nearest to six tenths. *)
Definition float_0_6 : spec_float := S754_finite false 5404319552844595 (-53).

(** ** The prompt (lines 14-41) *)

Definition dq : string := String "034"%char EmptyString.
Definition nl : string := String "010"%char EmptyString.

(** [s] between double quotes. *)
Definition quoted (s : string) : string := dq +:+ s +:+ dq.

(** Every line followed by a line feed. *)
Fixpoint unlines (ls : list string) : string :=
  match ls with
  | [] => EmptyString
  | l :: ls' => l +:+ nl +:+ unlines ls'
  end.

(** The text of the f-string before the line of the headline. *)
Definition prompt_template : list string :=
  [ EmptyString;
    "You are a systematic trading assistant.";
    EmptyString;
    "Instrument: GBP/USD";
    "Time horizon: next 1-24 hours.";
    EmptyString;
    "Task:";
    "1. Read the following news headline.";
    "2. Evaluate its *short-term* likely impact on GBP/USD.";
    "3. Respond ONLY in strict JSON with this exact structure:";
    EmptyString;
    "{";
    "  " +:+ quoted "sentiment" +:+ ": " +:+ quoted "bullish" +:+ " | "
      +:+ quoted "bearish" +:+ " | " +:+ quoted "neutral" +:+ ",";
    "  " +:+ quoted "confidence" +:+ ": float between 0 and 1,";
    "  " +:+ quoted "direction" +:+ ": " +:+ quoted "long" +:+ " | "
      +:+ quoted "short" +:+ " | " +:+ quoted "flat" +:+ ",";
    "  " +:+ quoted "reason" +:+ ": "
      +:+ quoted "very short explanation in one sentence";
    "}";
    EmptyString;
    "Rules:";
    "- " +:+ quoted "bullish"
      +:+ " means positive for EUR against USD (EUR/USD up).";
    "- " +:+ quoted "bearish"
      +:+ " means negative for EUR against USD (EUR/USD down).";
    "- " +:+ quoted "neutral" +:+ " means unclear or no strong edge.";
    "- " +:+ quoted "long" +:+ " = buy GBP/USD, " +:+ quoted "short"
      +:+ " = sell GBP/USD, " +:+ quoted "flat" +:+ " = no position.";
    "- If the headline is ambiguous, prefer " +:+ quoted "neutral"
      +:+ " and " +:+ quoted "flat" +:+ ".";
    "- Do NOT include any text before or after the JSON.";
    EmptyString ].

Definition build_prompt (headline : string) : string :=
  unlines prompt_template +:+ "Headline: " +:+ quoted headline +:+ nl.

(** [needle in hay]. *)
Fixpoint contains (hay needle : string) : bool :=
  String.prefix needle hay ||
  match hay with
  | EmptyString => false
  | String _ hay' => contains hay' needle
  end.

(** ** The validator (lines 52-67) *)

Definition required_keys : gset string :=
  {[ "sentiment"; "confidence"; "direction"; "reason" ]}.

Section Validator.

(** [json.loads] of the Python library: the decoded value, or the
    exception it raises. *)
Variable json_loads : string -> outcome pyvalue.

Definition parse_and_validate (raw_content : string) : io (option pyvalue) :=
  match json_loads raw_content with
  | Raises JSONDecodeError =>
      print [Lit "⚠️ Model did not return valid JSON. Raw response:"] ;;;
      print [Lit raw_content] ;;;
      ret None
  | Raises e => raise e
  | Returns data =>
      let! ks := lift (keys data) in
      if negb (issubset required_keys ks) then
        print [Lit "⚠️ JSON is missing required keys. Got:"] ;;;
        print [StrOf data] ;;;
        ret None
      else ret (Some data)
  end.

(** The whole function: [raw_content] is the outcome of lines 43-50, the
    call of the backend with the prompt and the stripped text of its
    reply. *)
Definition get_trading_signal_from_headline
    (chat : string -> outcome string) (headline : string)
    : io (option pyvalue) :=
  let prompt := build_prompt headline in
  let! raw_content := lift (chat prompt) in
  parse_and_validate raw_content.

End Validator.

(** ** The interpreter (lines 70-98) *)

Definition stay_flat_msg : string :=
  "- Stay FLAT (no trade). Confidence too low or neutral signal.".
Definition long_msg : string := "- Consider LONG GBP/USD with small risk.".
Definition short_msg : string := "- Consider SHORT GBP/USD with small risk.".
Definition unclear_msg : string := "- Stay FLAT (direction unclear).".
Definition warning_msg : string :=
  nl +:+ "⚠️ WARNING: This is a toy signal. Use ONLY for learning and backtesting, not live money.".

Definition interpret_signal (signal : pyvalue) : io unit :=
  let! sentiment := lift (getitem signal "sentiment") in
  let! confidence := lift (getitem signal "confidence") in
  let! direction := lift (getitem signal "direction") in
  let! reason := lift (getitem signal "reason") in
  print [Lit (nl +:+ "--- AI Trading Signal ---")] ;;;
  print [Lit "Sentiment : "; StrOf sentiment] ;;;
  print [Lit "Direction : "; StrOf direction] ;;;
  let! shown := lift (format_2f confidence) in
  print [Lit "Confidence: "; shown] ;;;
  print [Lit "Reason    : "; StrOf reason] ;;;
  print [Lit (nl +:+ "Suggested action (for testing / demo only):")] ;;;
  let! low := lift (lt_float confidence float_0_6) in
  (if low || eq_str direction "flat" || eq_str sentiment "neutral" then
     print [Lit stay_flat_msg]
   else if eq_str direction "long" then print [Lit long_msg]
   else if eq_str direction "short" then print [Lit short_msg]
   else print [Lit unclear_msg]) ;;;
  print [Lit warning_msg].

(** ** The recorder (lines 129-156) *)

Definition fieldnames : list string :=
  ["timestamp"; "headline"; "sentiment"; "direction"; "confidence"; "reason"].

(** How [csv.writer] takes a field: [None] is the empty string, a string is
    itself, anything else goes through [str()]. *)
Definition csv_field (v : pyvalue) : cell :=
  match v with
  | PyNone => CellText EmptyString
  | PyStr s => CellText s
  | _ => CellStr v
  end.

(** [DictWriter._dict_to_list]: a key outside the field names raises, a
    field name without a value is the empty string. *)
Definition dict_to_list (rowdict : pydict) : outcome record :=
  if bool_decide (dom rowdict ⊆ list_to_set fieldnames) then
    Returns ((fun k => csv_field (default (PyStr EmptyString) (rowdict !! k)))
               <$> fieldnames)
  else Raises ValueError.

(** The record of [writeheader]: the field names themselves. *)
Definition header : record := CellText <$> fieldnames.

(** [try: c except FileNotFoundError: h]. *)
Definition try_except_FileNotFoundError {A : Type} (c h : io A) : io A :=
  fun w =>
    match c w with
    | (Raises FileNotFoundError, w') => h w'
    | r => r
    end.

(** [open(filename, "r")], closed at once. *)
Definition open_read (filename : string) : io unit :=
  fun w =>
    match files w !! filename with
    | Some (RegularFile _ _) => (Returns tt, w)
    | Some Directory => (Raises IsADirectoryError, w)
    | Some NoParent | None => (Raises FileNotFoundError, w)
    end.

(** [open(filename, "a")]: a missing file is created empty, when its
    directory exists. *)
Definition open_append (filename : string) : io unit :=
  fun w =>
    match files w !! filename with
    | Some (RegularFile _ _) => (Returns tt, w)
    | Some Directory => (Raises IsADirectoryError, w)
    | Some NoParent => (Raises FileNotFoundError, w)
    | None =>
        (Returns tt,
         World (stdout w) (<[filename := RegularFile EmptyString []]> (files w)))
    end.

(** The line of one record written at the end of the file opened for
    appending; a record that cannot be encoded raises, and nothing of it is
    written.  What was written before it stays: the file is closed, and so
    flushed, when the exception leaves the [with] block. *)
Definition write_record (filename : string) (r : record) : io unit :=
  fun w =>
    match files w !! filename with
    | Some (RegularFile start content) =>
        if record_encodable r then
          (Returns tt,
           World (stdout w)
             (<[filename := RegularFile start (content ++ [r])]> (files w)))
        else (Raises UnicodeEncodeError, w)
    | Some Directory => (Raises IsADirectoryError, w)
    | Some NoParent | None => (Raises FileNotFoundError, w)
    end.

Definition writeheader (filename : string) : io unit :=
  write_record filename header.

Definition writerow (filename : string) (rowdict : pydict) : io unit :=
  let! r := lift (dict_to_list rowdict) in
  write_record filename r.

Definition default_filename : string := "signals_log.csv".

(** [now] is the text that [datetime.utcnow().isoformat()] gives at the
    call. *)
Definition log_signal (now : string) (headline : string) (signal : pyvalue)
    (filename : string) : io unit :=
  let! sentiment := lift (get signal "sentiment") in
  let! direction := lift (get signal "direction") in
  let! confidence := lift (get signal "confidence") in
  let! reason := lift (get signal "reason") in
  let row : pydict :=
    list_to_map
      [ ("timestamp", PyStr now);
        ("headline", PyStr headline);
        ("sentiment", sentiment);
        ("direction", direction);
        ("confidence", confidence);
        ("reason", reason) ] in
  let! file_exists :=
    try_except_FileNotFoundError (open_read filename ;;; ret true) (ret false) in
  open_append filename ;;;
  (if negb file_exists then writeheader filename else ret tt) ;;;
  writerow filename row.

(** The calls of [log_signal] of one process, in order: the time, the
    headline and the signal of each. *)
Fixpoint log_signals (calls : list (string * string * pyvalue))
    (filename : string) : io unit :=
  match calls with
  | [] => ret tt
  | (now, headline, signal) :: rest =>
      log_signal now headline signal filename ;;;
      log_signals rest filename
  end.

(** ** A reference decoder for JSON

    The theorems below hold for every [json_loads].  The examples run on
    this decoder, which follows the scanner of Python's [json] module:
    objects (a repeated key keeps its last value), arrays, strings with
    their escapes, numbers, [true], [false], [null] and the constants [NaN],
    [Infinity] and [-Infinity] that the module accepts.  An escape that
    names a lone surrogate is decoded to the three bytes that stand for
    it. *)

Module Json.

Definition is_ws (c : ascii) : bool :=
  match c with
  | " "%char | "009"%char | "010"%char | "013"%char => true
  | _ => false
  end.

Fixpoint skip_ws (s : string) : string :=
  match s with
  | String c r => if is_ws c then skip_ws r else s
  | EmptyString => s
  end.

(** [s] after its first character, when that is [c]. *)
Definition expect (c : ascii) (s : string) : option string :=
  match s with
  | String c' r => if (c' =? c)%char then Some r else None
  | EmptyString => None
  end.

(** [s] without its prefix [p]. *)
Fixpoint strip_prefix (p s : string) : option string :=
  match p, s with
  | EmptyString, _ => Some s
  | String a p', String b s' =>
      if (a =? b)%char then strip_prefix p' s' else None
  | String _ _, EmptyString => None
  end.

Definition code (c : ascii) : Z := Z.of_nat (nat_of_ascii c).

Definition digit (c : ascii) : option Z :=
  if (48 <=? code c) && (code c <=? 57) then Some (code c - 48) else None.

Definition hexdigit (c : ascii) : option Z :=
  if (48 <=? code c) && (code c <=? 57) then Some (code c - 48)
  else if (65 <=? code c) && (code c <=? 70) then Some (code c - 55)
  else if (97 <=? code c) && (code c <=? 102) then Some (code c - 87)
  else None.

(** The longest run of decimal digits at the head of [s], accumulated on
    [acc], with its length. *)
Fixpoint digits (acc count : Z) (s : string) : Z * Z * string :=
  match s with
  | String c r =>
      match digit c with
      | Some d => digits (10 * acc + d) (count + 1) r
      | None => (acc, count, s)
      end
  | EmptyString => (acc, count, s)
  end.

(** [float] of the decimal [m * 10^e10], correctly rounded. *)
Definition float_of_decimal (neg : bool) (m e10 : Z) : spec_float :=
  if m =? 0 then S754_zero neg
  else if 0 <=? e10 then
    binary_normalize prec emax (cond_Zopp neg (m * 10 ^ e10)) 0 false
  else
    let '(q, e, l) := SFdiv_core_binary prec emax m 0 (10 ^ (- e10)) 0 in
    binary_round_aux prec emax neg q e l.

(** The part [0|[1-9][0-9]*] of a number. *)
Definition scan_integer (s : string) : option (Z * string) :=
  match s with
  | String c r =>
      match digit c with
      | Some 0 => Some (0, r)
      | Some d => let '(v, _, r') := digits d 1 r in Some (v, r')
      | None => None
      end
  | EmptyString => None
  end.

(** The optional part [.[0-9]+]: the mantissa with the new digits and
    their number. *)
Definition scan_frac (m : Z) (s : string) : option (Z * Z * string) :=
  r ← expect "."%char s;
  let '(m', n, r') := digits m 0 r in
  if n =? 0 then None else Some (m', n, r').

(** The optional part [[eE][-+]?[0-9]+]. *)
Definition scan_exp (s : string) : option (Z * string) :=
  r ← (match expect "e"%char s with Some r => Some r | None => expect "E"%char s end);
  let '(sg, r1) :=
    match expect "-"%char r, expect "+"%char r with
    | Some r1, _ => (true, r1)
    | None, Some r1 => (false, r1)
    | None, None => (false, r)
    end in
  let '(v, n, r2) := digits 0 0 r1 in
  if n =? 0 then None else Some (cond_Zopp sg v, r2).

Definition scan_number (s : string) : option (pyvalue * string) :=
  let '(neg, s1) :=
    match expect "-"%char s with
    | Some r => (true, r)
    | None => (false, s)
    end in
  '(i, s2) ← scan_integer s1;
  match scan_frac i s2, scan_exp s2 with
  | None, None => Some (PyInt (cond_Zopp neg i), s2)
  | None, Some (e, s3) => Some (PyFloat (float_of_decimal neg i e), s3)
  | Some (m, n, s3), _ =>
      match scan_exp s3 with
      | None => Some (PyFloat (float_of_decimal neg m (- n)), s3)
      | Some (e, s4) => Some (PyFloat (float_of_decimal neg m (e - n)), s4)
      end
  end.

(** What a string literal holds: a byte of the text, or the code unit of
    an escape [\uXXXX]. *)
Inductive unit16 : Type :=
  | Byte (c : ascii)
  | Escaped (u : Z).

Definition hex4 (a b c d : ascii) : option Z :=
  x1 ← hexdigit a; x2 ← hexdigit b; x3 ← hexdigit c; x4 ← hexdigit d;
  Some (((x1 * 16 + x2) * 16 + x3) * 16 + x4).

Definition dq_char : ascii := "034"%char.

(** The character that a one-letter escape stands for. *)
Definition unescape (e : ascii) : option ascii :=
  match e with
  | "034"%char => Some "034"%char
  | "\"%char => Some "\"%char
  | "/"%char => Some "/"%char
  | "b"%char => Some "008"%char
  | "f"%char => Some "012"%char
  | "n"%char => Some "010"%char
  | "r"%char => Some "013"%char
  | "t"%char => Some "009"%char
  | _ => None
  end.

(** The text after the opening quote, up to the closing one; a control
    character is refused. *)
Fixpoint scan_string (s : string) : option (list unit16 * string) :=
  match s with
  | EmptyString => None
  | String c r =>
      if (c =? dq_char)%char then Some ([], r)
      else if (c =? "\")%char then
        match r with
        | String e r1 =>
            match unescape e with
            | Some c' => '(us, r') ← scan_string r1; Some (Byte c' :: us, r')
            | None =>
                if (e =? "u")%char then
                  match r1 with
                  | String h1 (String h2 (String h3 (String h4 r4))) =>
                      u ← hex4 h1 h2 h3 h4;
                      '(us, r') ← scan_string r4; Some (Escaped u :: us, r')
                  | _ => None
                  end
                else None
            end
        | EmptyString => None
        end
      else if code c <? 32 then None
      else '(us, r') ← scan_string r; Some (Byte c :: us, r')
  end.

Definition byte_of (n : Z) : ascii := ascii_of_nat (Z.to_nat n).

(** UTF-8 of a code point; a lone surrogate is kept as three bytes. *)
Definition utf8 (cp : Z) : list ascii :=
  if cp <? 128 then [byte_of cp]
  else if cp <? 2048 then
    [byte_of (192 + cp / 64); byte_of (128 + cp mod 64)]
  else if cp <? 65536 then
    [byte_of (224 + cp / 4096); byte_of (128 + (cp / 64) mod 64);
     byte_of (128 + cp mod 64)]
  else
    [byte_of (240 + cp / 262144); byte_of (128 + (cp / 4096) mod 64);
     byte_of (128 + (cp / 64) mod 64); byte_of (128 + cp mod 64)].

Definition is_high (u : Z) : bool := (55296 <=? u) && (u <=? 56319).
Definition is_low (u : Z) : bool := (56320 <=? u) && (u <=? 57343).

(** A high surrogate followed by a low one is one code point. *)
Fixpoint assemble (us : list unit16) : list ascii :=
  match us with
  | [] => []
  | Byte c :: rest => c :: assemble rest
  | Escaped u :: rest =>
      match rest with
      | Escaped v :: rest' =>
          if is_high u && is_low v then
            utf8 (65536 + (u - 55296) * 1024 + (v - 56320)) ++ assemble rest'
          else utf8 u ++ assemble rest
      | _ => utf8 u ++ assemble rest
      end
  end.

Definition py_scanstring (s : string) : option (string * string) :=
  '(us, r) ← scan_string s;
  Some (string_of_list_ascii (assemble us), r).

(** The values without parts, in the order of the scanner. *)
Definition scan_constant (s : string) : option (pyvalue * string) :=
  match strip_prefix "null" s with Some r => Some (PyNone, r) | None =>
  match strip_prefix "true" s with Some r => Some (PyBool true, r) | None =>
  match strip_prefix "false" s with Some r => Some (PyBool false, r) | None =>
  match scan_number s with Some res => Some res | None =>
  match strip_prefix "NaN" s with Some r => Some (PyFloat S754_nan, r) | None =>
  match strip_prefix "Infinity" s with
  | Some r => Some (PyFloat (S754_infinity false), r) | None =>
  match strip_prefix "-Infinity" s with
  | Some r => Some (PyFloat (S754_infinity true), r) | None => None
  end end end end end end end.

(** [scan_once]: one value at the head of [s].  [members] reads an object
    from the opening quote of a key on, [items] an array from a value on.
    A value costs at most two units of fuel for each character that it
    consumes, so twice the length of the text is fuel enough
    ([JsonFacts.scan_once_fuel] below). *)
Fixpoint scan_once (fuel : nat) (s : string) {struct fuel}
    : option (pyvalue * string) :=
  match fuel with
  | O => None
  | S fuel' =>
      match expect dq_char s, expect "{"%char s, expect "["%char s with
      | Some r, _, _ => '(k, r') ← py_scanstring r; Some (PyStr k, r')
      | None, Some r, _ =>
          match expect "}"%char (skip_ws r) with
          | Some r' => Some (PyDict ∅, r')
          | None => '(d, r') ← members fuel' ∅ (skip_ws r); Some (PyDict d, r')
          end
      | None, None, Some r =>
          match expect "]"%char (skip_ws r) with
          | Some r' => Some (PyList [], r')
          | None => '(l, r') ← items fuel' (skip_ws r); Some (PyList l, r')
          end
      | None, None, None => scan_constant s
      end
  end
with members (fuel : nat) (acc : pydict) (s : string) {struct fuel}
    : option (pydict * string) :=
  match fuel with
  | O => None
  | S fuel' =>
      r ← expect dq_char s;
      '(k, r1) ← py_scanstring r;
      r2 ← expect ":"%char (skip_ws r1);
      '(v, r3) ← scan_once fuel' (skip_ws r2);
      match expect "}"%char (skip_ws r3), expect ","%char (skip_ws r3) with
      | Some r4, _ => Some (<[k := v]> acc, r4)
      | None, Some r4 => members fuel' (<[k := v]> acc) (skip_ws r4)
      | None, None => None
      end
  end
with items (fuel : nat) (s : string) {struct fuel}
    : option (list pyvalue * string) :=
  match fuel with
  | O => None
  | S fuel' =>
      '(v, r1) ← scan_once fuel' s;
      match expect "]"%char (skip_ws r1), expect ","%char (skip_ws r1) with
      | Some r2, _ => Some ([v], r2)
      | None, Some r2 => '(l, r3) ← items fuel' (skip_ws r2); Some (v :: l, r3)
      | None, None => None
      end
  end.

(** [json.loads]: one value between optional white space, and nothing
    after it. *)
Definition loads (s : string) : outcome pyvalue :=
  match scan_once (S (2 * String.length s)) (skip_ws s) with
  | Some (v, r) =>
      match skip_ws r with
      | EmptyString => Returns v
      | _ => Raises JSONDecodeError
      end
  | None => Raises JSONDecodeError
  end.

End Json.

(** ** Vocabulary of the statements *)

(** [needle] occurs in [hay]. *)
Definition substring_of (needle hay : string) : Prop :=
  ∃ pre post, hay = pre +:+ needle +:+ post.

(** The two diagnostics of the validator. *)
Definition invalid_json_diag (raw_content : string) : list line :=
  [ [Lit "⚠️ Model did not return valid JSON. Raw response:"];
    [Lit raw_content] ].

Definition missing_keys_diag (data : pyvalue) : list line :=
  [ [Lit "⚠️ JSON is missing required keys. Got:"]; [StrOf data] ].

(** What [interpret_signal] prints before the suggested action. *)
Definition report_head (sentiment direction : pyvalue) : list line :=
  [ [Lit (nl +:+ "--- AI Trading Signal ---")];
    [Lit "Sentiment : "; StrOf sentiment];
    [Lit "Direction : "; StrOf direction] ].

Definition report_tail (shown : fragment) (reason : pyvalue) : list line :=
  [ [Lit "Confidence: "; shown];
    [Lit "Reason    : "; StrOf reason];
    [Lit (nl +:+ "Suggested action (for testing / demo only):")] ].

(** The line that the rule of lines 88-96 prints, [low] being the value of
    [confidence < 0.6]. *)
Definition suggested_action (low : bool) (direction sentiment : pyvalue)
    : string :=
  if low || eq_str direction "flat" || eq_str sentiment "neutral" then
    stay_flat_msg
  else if eq_str direction "long" then long_msg
  else if eq_str direction "short" then short_msg
  else unclear_msg.

(** The record that [log_signal] appends for a signal [d]. *)
Definition data_record (now headline : string) (d : pydict) : record :=
  [ CellText now;
    CellText headline;
    csv_field (default PyNone (d !! "sentiment"));
    csv_field (default PyNone (d !! "direction"));
    csv_field (default PyNone (d !! "confidence"));
    csv_field (default PyNone (d !! "reason")) ].

(** The record of one call of [log_signals]. *)
Definition call_record (call : string * string * pyvalue) : record :=
  match call with
  | (now, headline, PyDict d) => data_record now headline d
  | (now, headline, _) => []
  end.

Definition is_dict (v : pyvalue) : bool :=
  match v with
  | PyDict _ => true
  | _ => false
  end.

(** The file system with the regular file [filename] holding [start] and
    then the records [content]. *)
Definition with_file (filename start : string) (content : list record)
    (w : world) : world :=
  World (stdout w) (<[filename := RegularFile start content]> (files w)).

(** Whether [print] takes the [str()] of [v]. *)
Definition printable (v : pyvalue) : bool := fragment_encodable (StrOf v).

(** The three fields that [interpret_signal] prints through [str()]. *)
Definition fields_printable (d : pydict) : bool :=
  printable (default PyNone (d !! "sentiment"))
  && printable (default PyNone (d !! "direction"))
  && printable (default PyNone (d !! "reason")).

(** What a path must name for [open(filename, "a")] to succeed: a regular
    file, or nothing in a directory that exists. *)
Definition can_open (o : option node) : Prop :=
  match o with
  | None | Some (RegularFile _ _) => True
  | Some Directory | Some NoParent => False
  end.

(** The world that a new process finds: the files stay, the console is
    its own. *)
Definition new_process (w : world) : world := World [] (files w).

(** The cell of a record under the column [name]. *)
Definition column (name : string) (r : record) : option cell :=
  (list_to_map (zip fieldnames r) : gmap string cell) !! name.

(** The signal without the keys that are no required field. *)
Definition required_part (d : pydict) : pydict :=
  filter (λ kv, kv.1 ∈ required_keys) d.

(** *** Inputs of the examples *)

Definition empty_world : world := World [] ∅.

Definition signal_of (sentiment confidence direction reason : pyvalue) : pydict :=
  <["sentiment" := sentiment]> (<["confidence" := confidence]>
    (<["direction" := direction]> (<["reason" := reason]> ∅))).

(** The text of a JSON object with the four keys; [confidence] is the text
    of a JSON value. *)
Definition signal_text (sentiment confidence direction reason : string) : string :=
  "{" +:+ quoted "sentiment" +:+ ": " +:+ quoted sentiment +:+ ", "
      +:+ quoted "confidence" +:+ ": " +:+ confidence +:+ ", "
      +:+ quoted "direction" +:+ ": " +:+ quoted direction +:+ ", "
      +:+ quoted "reason" +:+ ": " +:+ quoted reason +:+ "}".

(** The float [2.5] and the float [0.9]. *)
Definition float_2_5 : spec_float := S754_finite false 5629499534213120 (-51).
Definition float_0_9 : spec_float := S754_finite false 8106479329266893 (-53).

(** An [int] of 401 digits. *)
Definition huge_int : Z := 10 ^ 400.

(** The string of the one lone surrogate U+D800, which [json.loads] gives
    for the escape [\ud800]. *)
Definition lone_surrogate : string :=
  String (Json.byte_of 237)
    (String (Json.byte_of 160) (String (Json.byte_of 128) EmptyString)).

(** A signal without confidence and direction whose reason is that
    string, and its text. *)
Definition surrogate_signal : pydict :=
  <["sentiment" := PyStr "bullish"]> (<["reason" := PyStr lone_surrogate]> ∅).

Definition surrogate_text : string :=
  "{" +:+ quoted "sentiment" +:+ ": " +:+ quoted "bullish" +:+ ", "
      +:+ quoted "reason" +:+ ": " +:+ quoted "\ud800" +:+ "}".

(** Two calls of one process and one call of the next. *)
Definition first_calls : list (string * string * pyvalue) :=
  [ ("2025-01-01T09:00:00.000001", "Bank of England raises rates",
     PyDict (signal_of (PyStr "bullish") (PyFloat float_0_9) (PyStr "long")
               (PyStr "x")));
    ("2025-01-01T09:05:00.000002", "UK inflation, GDP and jobs data due",
     PyDict (<["sentiment" := PyStr "neutral"]> ∅)) ].

Definition later_calls : list (string * string * pyvalue) :=
  [ ("2025-01-02T10:00:00.000003", "Sterling slides",
     PyDict (<["unit" := PyStr "pips"]>
               (signal_of (PyStr "bearish") (PyInt 1) (PyStr "short")
                  (PyStr "y")))) ].

(** The record of section 8 of the specification: every value is outside
    its documented range. *)
Definition loose_signal : pydict :=
  signal_of (PyStr "xyz") (PyFloat float_2_5) (PyStr "up") (PyStr "x").

(** A bullish long signal with the given confidence. *)
Definition long_signal (confidence : pyvalue) : pydict :=
  signal_of (PyStr "bullish") confidence (PyStr "long") (PyStr "x").

(** ** The interactive loop (lines 101-123) and the order of the module

    [main] reads lines until one of them is a quit token.  What the outside
    gives while a line is processed is a [turn]: the line that [input]
    reads, the outcome of the call of the backend if it is reached, and the
    time of the clock if it is read.  The methods [str.strip] and
    [str.lower] are arguments, as [json.loads] is. *)

Record turn : Type := Turn {
  typed : string;
  reply : outcome string;
  clock : string
}.

(** How a call of [main] ends: by [break], by an exception of the pipeline,
    by [NameError] for a global name that is not bound, or by the [EOFError]
    of [input] at the end of the input. *)
Inductive ending : Type :=
  | Quit
  | Escaped (e : exn)
  | NameError (name : string)
  | EOFError.

Definition quit_tokens : list string := ["quit"; "exit"; "q"].

Definition banner : list line :=
  [ [Lit "News → Trading Signal (Ollama + llama3)"];
    [Lit "Instrument: GBP/USD (you can change this in the code)."];
    [Lit ("Type 'quit' to exit." +:+ nl)] ].

(** The prompt that [input] writes before it reads; it is an entry of the
    console like the argument of a [print]. *)
Definition input_prompt : line := [Lit "Enter news headline: "].

Definition goodbye : line := [Lit "Goodbye."].
Definition empty_headline_msg : line := [Lit "Please type a non-empty headline."].
Definition no_signal_msg : line :=
  [Lit ("No valid signal returned. Try another headline." +:+ nl)].

Section Main.

Variable json_loads : string -> outcome pyvalue.
Variable strip : string -> string.
Variable lower : string -> string.

(** Whether the global name [log_signal] is bound when [main] runs. *)
Variable log_signal_defined : bool.

Fixpoint main_loop (turns : list turn) (w : world) : ending * world :=
  match turns with
  | [] => (EOFError, emit [input_prompt] w)
  | t :: rest =>
      let w0 := emit [input_prompt] w in
      let headline := strip (typed t) in
      if bool_decide (lower headline ∈ quit_tokens) then
        (Quit, emit [goodbye] w0)
      else if bool_decide (headline = EmptyString) then
        main_loop rest (emit [empty_headline_msg] w0)
      else
        match get_trading_signal_from_headline json_loads
                (fun _ => reply t) headline w0 with
        | (Raises e, w1) => (Escaped e, w1)
        | (Returns None, w1) => main_loop rest (emit [no_signal_msg] w1)
        | (Returns (Some signal), w1) =>
            if log_signal_defined then
              match log_signal (clock t) headline signal default_filename w1 with
              | (Raises e, w2) => (Escaped e, w2)
              | (Returns _, w2) =>
                  match interpret_signal signal w2 with
                  | (Raises e, w3) => (Escaped e, w3)
                  | (Returns _, w3) => main_loop rest w3
                  end
              end
            else (NameError "log_signal", w1)
        end
  end.

Definition main (turns : list turn) (w : world) : ending * world :=
  main_loop turns (emit banner w).

End Main.

(** Run as a script, the file calls [main] on line 127, before the [def] of
    [log_signal] on line 129 is executed. *)
Definition run_script (json_loads : string -> outcome pyvalue)
    (strip lower : string -> string) : list turn -> world -> ending * world :=
  main json_loads strip lower false.

(** After an import every [def] of the file was executed, and the caller
    calls [main]. *)
Definition main_imported (json_loads : string -> outcome pyvalue)
    (strip lower : string -> string) : list turn -> world -> ending * world :=
  main json_loads strip lower true.

(** ** Vocabulary of the further statements *)

(** The keys in the order in which lines 74-77 read them. *)
Definition lookup_order : list string :=
  ["sentiment"; "confidence"; "direction"; "reason"].

(** The first key of lines 74-77 that [d] lacks. *)
Definition first_missing (d : pydict) : option string :=
  snd <$> list_find (λ k, d !! k = None) lookup_order.

(** Whether a line is a quit token, empty, or a headline. *)
Definition is_quit (strip lower : string -> string) (t : turn) : bool :=
  bool_decide (lower (strip (typed t)) ∈ quit_tokens).

Definition is_blank (strip : string -> string) (t : turn) : bool :=
  bool_decide (strip (typed t) = EmptyString).

(** The record that a turn leaves in the log: that of the signal, when the
    line is a headline and the reply is a record with the four keys. *)
Definition turn_record (json_loads : string -> outcome pyvalue)
    (strip : string -> string) (t : turn) : option record :=
  if is_blank strip t then None
  else
    match reply t with
    | Returns raw_content =>
        match json_loads raw_content with
        | Returns (PyDict d) =>
            if bool_decide (required_keys ⊆ dom d)
            then Some (data_record (clock t) (strip (typed t)) d)
            else None
        | _ => None
        end
    | Raises _ => None
    end.

(** A turn that the loop survives: no quit token, and an empty line, a reply
    that is malformed, a record without the four keys, or a record with them
    whose confidence the format [.2f] takes. *)
Definition survives (json_loads : string -> outcome pyvalue)
    (strip lower : string -> string) (t : turn) : Prop :=
  is_quit strip lower t = false
  ∧ (is_blank strip t = true
     ∨ ∃ raw_content, reply t = Returns raw_content
         ∧ (json_loads raw_content = Raises JSONDecodeError
            ∨ ∃ d, json_loads raw_content = Returns (PyDict d)
                ∧ (required_keys ⊈ dom d
                   ∨ required_keys ⊆ dom d
                     ∧ ∃ c shown, d !! "confidence" = Some c
                         ∧ format_2f c = Returns shown))).

(** The log after the records [rs] were appended by successive calls. *)
Definition log_after (before : option node) (rs : list record) : option node :=
  match before, rs with
  | None, [] => None
  | None, _ :: _ => Some (RegularFile EmptyString (header :: rs))
  | Some (RegularFile start content), _ =>
      Some (RegularFile start (content ++ rs))
  | Some other, _ => Some other
  end.

(** What a turn with an accepted signal writes can be encoded: the record
    for the log, and the three fields that the interpreter prints. *)
Definition encodable_turn (json_loads : string -> outcome pyvalue)
    (strip : string -> string) (t : turn) : Prop :=
  ∀ raw_content d,
    reply t = Returns raw_content →
    json_loads raw_content = Returns (PyDict d) →
    required_keys ⊆ dom d →
    record_encodable (data_record (clock t) (strip (typed t)) d) = true
    ∧ fields_printable d = true.

(** Why a turn makes an exception leave the loop.  The backend raised it;
    the decoder raised it and it is no [JSONDecodeError]; the decoded value
    is no record; or the record has the four keys and the log cannot be
    opened, the record or a printed field cannot be encoded, or the format
    of the confidence raised it. *)
Definition crash_cause (json_loads : string -> outcome pyvalue)
    (strip lower : string -> string) (t : turn) (e : exn) : Prop :=
  is_quit strip lower t = false
  ∧ is_blank strip t = false
  ∧ (reply t = Raises e
     ∨ ∃ raw_content, reply t = Returns raw_content
         ∧ (json_loads raw_content = Raises e ∧ e ≠ JSONDecodeError
            ∨ (∃ data, json_loads raw_content = Returns data
                 ∧ is_dict data = false ∧ e = AttributeError)
            ∨ ∃ d, json_loads raw_content = Returns (PyDict d)
                ∧ required_keys ⊆ dom d
                ∧ (e = IsADirectoryError
                   ∨ e = FileNotFoundError
                   ∨ e = UnicodeEncodeError
                     ∧ (record_encodable
                          (data_record (clock t) (strip (typed t)) d) = false
                        ∨ fields_printable d = false)
                   ∨ ∃ c, d !! "confidence" = Some c
                       ∧ format_2f c = Raises e))).

(** *** Stand-ins for the string methods in the examples *)

Definition lower_char (c : ascii) : ascii :=
  let n := Json.code c in
  if (65 <=? n) && (n <=? 90) then Json.byte_of (n + 32) else c.

(** [str.lower] on ASCII text. *)
Fixpoint lower_ascii (s : string) : string :=
  match s with
  | EmptyString => EmptyString
  | String c r => String (lower_char c) (lower_ascii r)
  end.

Fixpoint lstrip_ascii (s : string) : string :=
  match s with
  | String c r => if Ascii.is_space c then lstrip_ascii r else s
  | EmptyString => s
  end.

(** [str.strip] on text whose white space is ASCII. *)
Definition strip_ascii (s : string) : string :=
  String.rev (lstrip_ascii (String.rev (lstrip_ascii s))).

(** A session: an empty line, a reply that is no JSON, a headline with a
    valid signal, and the quit token. *)
Definition skipped_turns : list turn :=
  [ Turn "   " (Raises BackendError) "2025-01-01T09:00:00";
    Turn "Markets calm" (Returns "no idea") "2025-01-01T09:01:00" ].

Definition signal_turn : turn :=
  Turn " Bank of England raises rates "
    (Returns (signal_text "bullish" "0.9" "long" "x"))
    "2025-01-01T09:02:00".

Definition sample_turns : list turn := skipped_turns ++ [signal_turn].

(** The signal of [high_turn] below. *)
Definition high_signal : pydict :=
  signal_of (PyStr "bearish") (PyStr "high") (PyStr "short") (PyStr "y").

Definition quit_turn : turn := Turn "  QUIT " (Raises BackendError) EmptyString.

(** A headline whose reply has the string confidence [high]. *)
Definition high_turn : turn :=
  Turn "Sterling slides"
    (Returns (signal_text "bearish" (quoted "high") "short" "y"))
    "2025-01-02T10:00:00".

(** * Properties *)

(** ** The monad *)

Lemma emit_nil w : emit [] w = w.
Proof. destruct w as [out fs]. unfold emit. simpl. by rewrite app_nil_r. Qed.

(** Runs the monad on the console and brings the printed lines together. *)
Ltac run_io :=
  cbv [bind lift print ret raise emit];
  simpl; rewrite <- ?app_assoc; simpl.

Lemma eq_str_true v s : eq_str v s = true ↔ v = PyStr s.
Proof.
  destruct v; simpl; try (split; [discriminate | intros [=]]).
  rewrite bool_decide_eq_true. split; [by intros -> | by intros [= ->]].
Qed.

(** ** The reference decoder *)

Module JsonFacts.

Import Json.

#[local] Abbreviation len := String.length.

Lemma skip_ws_length s : (len (skip_ws s) ≤ len s)%nat.
Proof.
  induction s as [| c r IH]; simpl; [lia |].
  destruct (is_ws c); simpl; lia.
Qed.

Lemma expect_length c s r : expect c s = Some r → len s = S (len r).
Proof.
  destruct s as [| c' s]; simpl; [discriminate |].
  destruct (c' =? c)%char; [| discriminate]. by intros [= ->].
Qed.

Lemma strip_prefix_length p s r :
  strip_prefix p s = Some r → len s = (len p + len r)%nat.
Proof.
  revert s. induction p as [| a p IH]; intros s; simpl.
  - by intros [= ->].
  - destruct s as [| b s]; [discriminate |].
    destruct (a =? b)%char; [| discriminate].
    intros H%IH. simpl. lia.
Qed.

Lemma digits_length acc count s :
  (len (digits acc count s).2 ≤ len s)%nat.
Proof.
  revert acc count. induction s as [| c r IH]; intros acc count; simpl; [lia |].
  destruct (digit c); simpl; [| lia].
  specialize (IH (10 * acc + z)%Z (count + 1)%Z). lia.
Qed.

Lemma scan_integer_length s v r :
  scan_integer s = Some (v, r) → (len r < len s)%nat.
Proof.
  destruct s as [| c s]; simpl; [discriminate |].
  destruct (digit c) as [d |]; [| discriminate].
  pose proof (digits_length d 1 s) as H.
  destruct (digits d 1 s) as [[v' n] r'].
  destruct d; intros [= <- <-]; simpl in *; lia.
Qed.

Lemma scan_frac_length m s m' n r :
  scan_frac m s = Some (m', n, r) → (len r < len s)%nat.
Proof.
  unfold scan_frac. destruct (expect "." s) as [r0 |] eqn:He; [| discriminate].
  simpl. pose proof (digits_length m 0 r0) as H.
  destruct (digits m 0 r0) as [[v' n'] r'].
  destruct (n' =? 0)%Z; [discriminate |]. intros [= <- <- <-].
  apply expect_length in He. simpl in *. lia.
Qed.

Lemma scan_exp_length s e r :
  scan_exp s = Some (e, r) → (len r < len s)%nat.
Proof.
  unfold scan_exp.
  assert (He : ∀ r0,
    match expect "e" s with Some r => Some r | None => expect "E" s end
    = Some r0 → len s = S (len r0)).
  { intros r0. destruct (expect "e" s) eqn:H1.
    - intros [= <-]. by apply expect_length in H1.
    - apply expect_length. }
  destruct (match expect "e" s with Some r => Some r | None => expect "E" s end)
    as [r0 |]; [| discriminate].
  specialize (He r0 eq_refl). simpl.
  destruct (expect "-" r0) as [r1 |] eqn:Hm;
    [| destruct (expect "+" r0) as [r1 |] eqn:Hp].
  - apply expect_length in Hm. pose proof (digits_length 0 0 r1) as H.
    destruct (digits 0 0 r1) as [[v n] r2].
    destruct (n =? 0)%Z; [discriminate |]. intros [= <- <-]. simpl in *. lia.
  - apply expect_length in Hp. pose proof (digits_length 0 0 r1) as H.
    destruct (digits 0 0 r1) as [[v n] r2].
    destruct (n =? 0)%Z; [discriminate |]. intros [= <- <-]. simpl in *. lia.
  - pose proof (digits_length 0 0 r0) as H.
    destruct (digits 0 0 r0) as [[v n] r2].
    destruct (n =? 0)%Z; [discriminate |]. intros [= <- <-]. simpl in *. lia.
Qed.

Lemma scan_number_length s v r :
  scan_number s = Some (v, r) → (len r < len s)%nat.
Proof.
  unfold scan_number.
  assert (Hs : ∀ neg s1,
    match expect "-" s with Some r => (true, r) | None => (false, s) end
    = (neg, s1) → (len s1 ≤ len s)%nat).
  { intros neg s1. destruct (expect "-" s) eqn:H.
    - intros [= <- <-]. apply expect_length in H. lia.
    - intros [= <- <-]. lia. }
  destruct (match expect "-" s with Some r => (true, r) | None => (false, s) end)
    as [neg s1].
  specialize (Hs neg s1 eq_refl).
  destruct (scan_integer s1) as [[i s2] |] eqn:Hi; [| discriminate].
  apply scan_integer_length in Hi. simpl.
  destruct (scan_frac i s2) as [[[m n] s3] |] eqn:Hf.
  - apply scan_frac_length in Hf.
    destruct (scan_exp s3) as [[e s4] |] eqn:He.
    + apply scan_exp_length in He. intros [= <- <-]. lia.
    + intros [= <- <-]. lia.
  - destruct (scan_exp s2) as [[e s3] |] eqn:He.
    + apply scan_exp_length in He. intros [= <- <-]. lia.
    + intros [= <- <-]. lia.
Qed.

Lemma scan_constant_length s v r :
  scan_constant s = Some (v, r) → (len r < len s)%nat.
Proof.
  unfold scan_constant.
  repeat match goal with
  | |- context [strip_prefix ?p s] =>
      let H := fresh in
      destruct (strip_prefix p s) eqn:H;
      [apply strip_prefix_length in H; intros [= <- <-]; simpl in H; lia |]
  | |- context [scan_number s] =>
      let H := fresh in
      destruct (scan_number s) as [[? ?] |] eqn:H;
      [apply scan_number_length in H; intros [= <- <-]; lia |]
  end.
  discriminate.
Qed.

Lemma scan_string_length s us r :
  scan_string s = Some (us, r) → (len r < len s)%nat.
Proof.
  remember (len s) as n eqn:Hn.
  assert (Hle : (len s ≤ n)%nat) by lia. clear Hn.
  revert s us r Hle. induction n as [| n IH]; intros s us r Hle.
  { destruct s; simpl in *; [discriminate | lia]. }
  destruct s as [| c r0]; [discriminate |]. simpl in Hle. simpl.
  destruct (c =? dq_char)%char; [intros [= <- <-]; lia |].
  destruct (c =? "\")%char.
  - destruct r0 as [| e r1]; [discriminate |]. simpl in Hle.
    destruct (unescape e) as [c' |].
    + destruct (scan_string r1) as [[us' r'] |] eqn:H1; [| discriminate].
      apply IH in H1; [| lia]. intros [= <- <-]. lia.
    + destruct (e =? "u")%char; [| discriminate].
      destruct r1 as [| h1 [| h2 [| h3 [| h4 r4]]]]; try discriminate.
      simpl in Hle.
      destruct (hex4 h1 h2 h3 h4) as [u |]; [| discriminate]. simpl.
      destruct (scan_string r4) as [[us' r'] |] eqn:H4; [| discriminate].
      apply IH in H4; [| lia]. intros [= <- <-]. simpl. lia.
  - destruct (code c <? 32)%Z; [discriminate |].
    destruct (scan_string r0) as [[us' r'] |] eqn:H0; [| discriminate].
    apply IH in H0; [| lia]. intros [= <- <-]. lia.
Qed.

Lemma py_scanstring_length s k r :
  py_scanstring s = Some (k, r) → (len r < len s)%nat.
Proof.
  unfold py_scanstring.
  destruct (scan_string s) as [[us r'] |] eqn:H; [| discriminate].
  apply scan_string_length in H. by intros [= <- <-].
Qed.

(** With fuel beyond twice the length of the text, more fuel changes
    nothing, and every value consumes text. *)
Lemma scan_fuel n :
  ∀ s f1 f2, (n ≤ f1)%nat → (n ≤ f2)%nat →
    ((2 * len s < n)%nat →
       scan_once f1 s = scan_once f2 s
       ∧ ∀ v r, scan_once f1 s = Some (v, r) → (len r < len s)%nat)
    ∧ ((2 * len s + 1 < n)%nat →
       (∀ acc, members f1 acc s = members f2 acc s
               ∧ ∀ d r, members f1 acc s = Some (d, r) → (len r < len s)%nat)
       ∧ items f1 s = items f2 s
       ∧ ∀ l r, items f1 s = Some (l, r) → (len r < len s)%nat).
Proof.
  induction n as [| n IH]; intros s f1 f2 H1 H2; [split; lia |].
  destruct f1 as [| f1]; [lia |]. destruct f2 as [| f2]; [lia |].
  assert (Hn1 : (n ≤ f1)%nat) by lia. assert (Hn2 : (n ≤ f2)%nat) by lia.
  split; [intros Hs | intros Hs; split; [intros acc |]].
  - (* scan_once *)
    simpl.
    destruct (expect dq_char s) as [r |] eqn:Hq.
    { split; [done |]. intros v r'.
      destruct (py_scanstring r) as [[k r1] |] eqn:Hk; [| discriminate].
      apply py_scanstring_length in Hk. apply expect_length in Hq.
      intros [= <- <-]. lia. }
    destruct (expect "{" s) as [r |] eqn:Ho.
    { apply expect_length in Ho. pose proof (skip_ws_length r) as Hw.
      destruct (expect "}" (skip_ws r)) as [r' |] eqn:Hc.
      - apply expect_length in Hc. split; [done |].
        intros v r0 [= <- <-]. lia.
      - destruct (IH (skip_ws r) f1 f2 Hn1 Hn2) as [_ Hm].
        destruct (Hm ltac:(lia)) as [Hm' _].
        destruct (Hm' ∅) as [<- Hlen]. split; [done |].
        intros v r0.
        destruct (members f1 ∅ (skip_ws r)) as [[d r1] |] eqn:Hd;
          [| discriminate].
        intros [= <- <-]. specialize (Hlen d r1 eq_refl). lia. }
    destruct (expect "[" s) as [r |] eqn:Ha.
    { apply expect_length in Ha. pose proof (skip_ws_length r) as Hw.
      destruct (expect "]" (skip_ws r)) as [r' |] eqn:Hc.
      - apply expect_length in Hc. split; [done |].
        intros v r0 [= <- <-]. lia.
      - destruct (IH (skip_ws r) f1 f2 Hn1 Hn2) as [_ Hm].
        destruct (Hm ltac:(lia)) as (_ & Heq & Hlen).
        rewrite <- Heq. split; [done |].
        intros v r0.
        destruct (items f1 (skip_ws r)) as [[l r1] |] eqn:Hd;
          [| discriminate].
        intros [= <- <-]. specialize (Hlen l r1 eq_refl). lia. }
    split; [done |]. intros v r. apply scan_constant_length.
  - (* members *)
    simpl.
    destruct (expect dq_char s) as [r |] eqn:Hq; [| by split].
    apply expect_length in Hq. simpl.
    destruct (py_scanstring r) as [[k r1] |] eqn:Hk; [| by split].
    apply py_scanstring_length in Hk. simpl.
    pose proof (skip_ws_length r1) as Hw1.
    destruct (expect ":" (skip_ws r1)) as [r2 |] eqn:Hcol; [| by split].
    apply expect_length in Hcol. simpl.
    pose proof (skip_ws_length r2) as Hw2.
    destruct (IH (skip_ws r2) f1 f2 Hn1 Hn2) as [Hv _].
    destruct (Hv ltac:(lia)) as [<- Hvlen].
    destruct (scan_once f1 (skip_ws r2)) as [[v r3] |] eqn:Hval; [| by split].
    specialize (Hvlen v r3 eq_refl). simpl.
    pose proof (skip_ws_length r3) as Hw3.
    destruct (expect "}" (skip_ws r3)) as [r4 |] eqn:Hc.
    { apply expect_length in Hc. split; [done |].
      intros d r0 [= <- <-]. lia. }
    destruct (expect "," (skip_ws r3)) as [r4 |] eqn:Hcm; [| by split].
    apply expect_length in Hcm. pose proof (skip_ws_length r4) as Hw4.
    destruct (IH (skip_ws r4) f1 f2 Hn1 Hn2) as [_ Hm].
    destruct (Hm ltac:(lia)) as [Hm' _].
    destruct (Hm' (<[k := v]> acc)) as [Heq Hlen].
    split; [done |]. intros d r0 Hd. apply Hlen in Hd. lia.
  - (* items *)
    simpl.
    destruct (IH s f1 f2 Hn1 Hn2) as [Hv _].
    destruct (Hv ltac:(lia)) as [<- Hvlen].
    destruct (scan_once f1 s) as [[v r1] |] eqn:Hval; [| by split].
    specialize (Hvlen v r1 eq_refl). simpl.
    pose proof (skip_ws_length r1) as Hw1.
    destruct (expect "]" (skip_ws r1)) as [r2 |] eqn:Hc.
    { apply expect_length in Hc. split; [done |].
      intros l r0 [= <- <-]. lia. }
    destruct (expect "," (skip_ws r1)) as [r2 |] eqn:Hcm; [| by split].
    apply expect_length in Hcm. pose proof (skip_ws_length r2) as Hw2.
    destruct (IH (skip_ws r2) f1 f2 Hn1 Hn2) as [_ Hm].
    destruct (Hm ltac:(lia)) as (_ & <- & Hlen).
    split; [done |]. intros l r0.
    destruct (items f1 (skip_ws r2)) as [[l' r3] |] eqn:Hd; [| discriminate].
    intros [= <- <-]. specialize (Hlen l' r3 eq_refl). lia.
Qed.

(** The fuel of [loads] is enough: with more, the decoder gives the same. *)
Theorem scan_once_fuel s fuel :
  (2 * len s < fuel)%nat →
  scan_once fuel (skip_ws s) = scan_once (S (2 * len s)) (skip_ws s).
Proof.
  intros H. pose proof (skip_ws_length s) as Hw.
  destruct (scan_fuel (S (2 * len s)) (skip_ws s) fuel (S (2 * len s)))
    as [Hs _]; [lia | lia |].
  destruct Hs as [Hs _]; [lia | done].
Qed.

End JsonFacts.

(** ** The validator *)

Lemma required_keys_present (d : pydict) :
  required_keys ⊆ dom d ↔
  is_Some (d !! "sentiment") ∧ is_Some (d !! "confidence") ∧
  is_Some (d !! "direction") ∧ is_Some (d !! "reason").
Proof.
  unfold required_keys. rewrite <- !elem_of_dom.
  rewrite !union_subseteq, !singleton_subseteq_l. tauto.
Qed.

Section ValidatorFacts.

Variable json_loads : string -> outcome pyvalue.

(** Malformed text: two lines of diagnostic, and no signal. *)
Lemma validate_malformed raw w :
  json_loads raw = Raises JSONDecodeError →
  parse_and_validate json_loads raw w
  = (Returns None, emit (invalid_json_diag raw) w).
Proof.
  intros H. unfold parse_and_validate. rewrite H.
  run_io. reflexivity.
Qed.

(** A decoded record: accepted as it is, or refused with a diagnostic,
    by its keys alone. *)
Lemma validate_record raw d w :
  json_loads raw = Returns (PyDict d) →
  parse_and_validate json_loads raw w
  = if bool_decide (required_keys ⊆ dom d)
    then (Returns (Some (PyDict d)), w)
    else (Returns None, emit (missing_keys_diag (PyDict d)) w).
Proof.
  intros H. unfold parse_and_validate. rewrite H.
  run_io. unfold issubset.
  destruct (bool_decide (required_keys ⊆ dom d)); simpl;
    rewrite <- ?app_assoc; reflexivity.
Qed.

(** A decoded value that is no record: [data.keys()] raises, outside the
    [try] block. *)
Lemma validate_non_record raw data w :
  json_loads raw = Returns data →
  is_dict data = false →
  parse_and_validate json_loads raw w = (Raises AttributeError, w).
Proof.
  intros H Hd. unfold parse_and_validate. rewrite H.
  by destruct data.
Qed.

(** A signal that the validator returns is the decoded record, it has the
    four keys, and nothing was printed. *)
Lemma validate_some raw v w w' :
  parse_and_validate json_loads raw w = (Returns (Some v), w') →
  ∃ d, v = PyDict d ∧ json_loads raw = Returns (PyDict d)
       ∧ required_keys ⊆ dom d ∧ w' = w.
Proof.
  destruct (json_loads raw) as [data | e] eqn:H.
  - destruct (is_dict data) eqn:Hd.
    + destruct data as [| | | | | | d]; try discriminate.
      rewrite (validate_record _ _ _ H).
      case_bool_decide as Hk; intros [= <- <-]. by exists d.
    + by rewrite (validate_non_record _ _ _ H Hd).
  - unfold parse_and_validate. rewrite H.
    destruct e; by run_io.
Qed.

(** Any other exception of the decoder passes through. *)
Lemma validate_other_exception raw e w :
  json_loads raw = Raises e →
  e ≠ JSONDecodeError →
  parse_and_validate json_loads raw w = (Raises e, w).
Proof.
  intros H He. unfold parse_and_validate. rewrite H.
  by destruct e.
Qed.

(** The outcome and the lines printed depend on the text alone. *)
Lemma validate_shape raw :
  ∃ r diag, ∀ w, parse_and_validate json_loads raw w = (r, emit diag w).
Proof.
  destruct (json_loads raw) as [data | e] eqn:H.
  - destruct (is_dict data) eqn:Hd.
    + destruct data; try discriminate.
      destruct (bool_decide (required_keys ⊆ dom entries)) eqn:Hk.
      * exists (Returns (Some (PyDict entries))), []. intros w.
        rewrite (validate_record _ _ _ H), Hk. by rewrite emit_nil.
      * exists (Returns None), (missing_keys_diag (PyDict entries)). intros w.
        by rewrite (validate_record _ _ _ H), Hk.
    + exists (Raises AttributeError), []. intros w.
      rewrite (validate_non_record _ _ _ H Hd). by rewrite emit_nil.
  - destruct (decide (e = JSONDecodeError)) as [-> | He].
    + exists (Returns None), (invalid_json_diag raw). intros w.
      by apply validate_malformed.
    + exists (Raises e), []. intros w.
      rewrite (validate_other_exception _ _ _ H He). by rewrite emit_nil.
Qed.

(** C1: for a raw text that decodes to a record [d], the validator returns
    that very record exactly when the four required keys are among its
    keys, whatever the values are; when a required key is missing it
    returns [None]. *)
Theorem validator_accepts_iff_required_keys raw d w :
  json_loads raw = Returns (PyDict d) →
  (fst (parse_and_validate json_loads raw w) = Returns (Some (PyDict d))
   ↔ required_keys ⊆ dom d)
  ∧ (required_keys ⊈ dom d →
     fst (parse_and_validate json_loads raw w) = Returns None).
Proof.
  intros H. rewrite (validate_record _ _ _ H).
  case_bool_decide as Hk; simpl; split; done.
Qed.

(** C8: two validations of the same text, in whatever state of the
    console and of the files, give the same outcome (the same signal, the
    same absence of one, or the same exception) and print the same
    diagnostic. *)
Theorem validator_deterministic raw w1 w2 :
  fst (parse_and_validate json_loads raw w1)
  = fst (parse_and_validate json_loads raw w2)
  ∧ ∃ diag,
      snd (parse_and_validate json_loads raw w1) = emit diag w1
      ∧ snd (parse_and_validate json_loads raw w2) = emit diag w2.
Proof.
  destruct (validate_shape raw) as (r & diag & H).
  rewrite !H. simpl. eauto.
Qed.

(** The whole function: a failure of the backend passes through, its text
    goes to the validator. *)
Lemma get_trading_signal_from_headline_run chat headline w :
  get_trading_signal_from_headline json_loads chat headline w
  = match chat (build_prompt headline) with
    | Returns raw_content => parse_and_validate json_loads raw_content w
    | Raises e => (Raises e, w)
    end.
Proof.
  unfold get_trading_signal_from_headline. cbv [bind lift].
  by destruct (chat (build_prompt headline)).
Qed.

End ValidatorFacts.

(** The record of the specification, out of range everywhere, is accepted. *)
Example validate_loose_signal w :
  parse_and_validate Json.loads (signal_text "xyz" "2.5" "up" "x") w
  = (Returns (Some (PyDict loose_signal)), w).
Proof. by rewrite (validate_record Json.loads _ loose_signal). Qed.

(** A record without [reason] is refused. *)
Example validate_missing_reason w :
  fst (parse_and_validate Json.loads
         ("{" +:+ quoted "sentiment" +:+ ": " +:+ quoted "bullish" +:+ ", "
              +:+ quoted "confidence" +:+ ": 0.8, "
              +:+ quoted "direction" +:+ ": " +:+ quoted "long" +:+ "}") w)
  = Returns None.
Proof.
  by rewrite (validate_record Json.loads _
    (<["sentiment" := PyStr "bullish"]>
       (<["confidence" := PyFloat (S754_finite false 7205759403792794 (-53))]>
          (<["direction" := PyStr "long"]> ∅)))).
Qed.

Lemma validator_accepts_iff_required_keys_witness :
  Json.loads (signal_text "xyz" "2.5" "up" "x") = Returns (PyDict loose_signal)
  ∧ (fst (parse_and_validate Json.loads (signal_text "xyz" "2.5" "up" "x")
            empty_world)
     = Returns (Some (PyDict loose_signal))
     ↔ required_keys ⊆ dom loose_signal)
  ∧ (required_keys ⊈ dom loose_signal →
     fst (parse_and_validate Json.loads (signal_text "xyz" "2.5" "up" "x")
            empty_world)
     = Returns None).
Proof.
  split; [reflexivity |].
  apply (validator_accepts_iff_required_keys Json.loads). reflexivity.
Defined.

(** C4: the validator on decoded data that is no record.  A JSON array and
    a bare number are decoded without error, and [data.keys()] then raises
    [AttributeError], which nothing catches: no [None] is returned and
    nothing is printed. *)
Theorem validator_non_record_escapes w :
  Json.loads "[1, 2]" = Returns (PyList [PyInt 1; PyInt 2])
  ∧ parse_and_validate Json.loads "[1, 2]" w = (Raises AttributeError, w)
  ∧ Json.loads "7" = Returns (PyInt 7)
  ∧ parse_and_validate Json.loads "7" w = (Raises AttributeError, w).
Proof.
  split; [reflexivity |]. split.
  - by apply (validate_non_record Json.loads _ (PyList [PyInt 1; PyInt 2])).
  - split; [reflexivity |].
    by apply (validate_non_record Json.loads _ (PyInt 7)).
Qed.

(** Malformed text, for comparison, is handled: no signal, no exception. *)
Example validate_truncated_array w :
  parse_and_validate Json.loads "[1, 2" w
  = (Returns None, emit (invalid_json_diag "[1, 2") w).
Proof. by apply validate_malformed. Qed.

(** ** The interpreter *)

(** A value that [.2f] formats also compares with a float. *)
Lemma format_2f_lt_float v shown :
  format_2f v = Returns shown → ∃ low, lt_float v float_0_6 = Returns low.
Proof. destruct v; simpl; try discriminate; eauto. Qed.

(** The values that [.2f] formats: a float, and an [int] or [bool] that
    converts to one. *)
Lemma format_2f_returns v :
  (∃ shown, format_2f v = Returns shown) ↔
  match v with
  | PyFloat _ => True
  | PyInt n => ∃ x, float_of_int n = Returns x
  | PyBool b => True
  | _ => False
  end.
Proof.
  destruct v as [| [] | n | x | s | l | d]; simpl;
    try (split; [by intros [? [=]] | done]);
    try (split; [done | by eauto]).
  destruct (float_of_int n) as [x | e]; simpl.
  - split; eauto.
  - split; [by intros [? [=]] | by intros [? [=]]].
Qed.

(** What the format gives is digits. *)
Lemma format_2f_encodable v shown :
  format_2f v = Returns shown → fragment_encodable shown = true.
Proof.
  destruct v as [| b | n | x | s | l | d]; simpl; try discriminate.
  - destruct (float_of_int (Z.b2z b)); simpl; [| discriminate].
    by intros [= <-].
  - destruct (float_of_int n); simpl; [| discriminate]. by intros [= <-].
  - by intros [= <-].
Qed.

Section InterpreterFacts.

Variables (d : pydict) (sentiment confidence direction reason : pyvalue).
Hypothesis Hsentiment : d !! "sentiment" = Some sentiment.
Hypothesis Hconfidence : d !! "confidence" = Some confidence.
Hypothesis Hdirection : d !! "direction" = Some direction.
Hypothesis Hreason : d !! "reason" = Some reason.

(** The ways in which a signal with the four keys runs.  The sentiment
    or the direction cannot be printed, after one line or two; the format of
    the confidence raises after three; the reason cannot be printed after
    four; (never, by [format_2f_lt_float]) the comparison raises after six;
    or all eight lines are printed. *)
Lemma interpret_signal_run w :
  interpret_signal (PyDict d) w =
  if negb (printable sentiment) then
    (Raises UnicodeEncodeError,
     emit (take 1 (report_head sentiment direction)) w)
  else if negb (printable direction) then
    (Raises UnicodeEncodeError,
     emit (take 2 (report_head sentiment direction)) w)
  else
    match format_2f confidence with
    | Raises e => (Raises e, emit (report_head sentiment direction) w)
    | Returns shown =>
        if negb (printable reason) then
          (Raises UnicodeEncodeError,
           emit (report_head sentiment direction
                 ++ take 1 (report_tail shown reason)) w)
        else
          match lt_float confidence float_0_6 with
          | Raises e =>
              (Raises e,
               emit (report_head sentiment direction
                     ++ report_tail shown reason) w)
          | Returns low =>
              (Returns tt,
               emit (report_head sentiment direction
                     ++ report_tail shown reason
                     ++ [ [Lit (suggested_action low direction sentiment)];
                          [Lit warning_msg] ]) w)
          end
    end.
Proof.
  unfold interpret_signal, getitem.
  rewrite Hsentiment, Hconfidence, Hdirection, Hreason.
  unfold printable.
  destruct (fragment_encodable (StrOf sentiment)) eqn:Hps,
    (fragment_encodable (StrOf direction)) eqn:Hpd,
    (fragment_encodable (StrOf reason)) eqn:Hpr;
    simpl in Hps, Hpd, Hpr; run_io; rewrite ?andb_true_r, ?Hps; simpl;
    try reflexivity;
    rewrite <- ?app_assoc, ?andb_true_r, ?Hpd; simpl; try reflexivity.
  all: destruct (format_2f confidence) as [shown | e] eqn:Hshown; simpl;
    [| reflexivity].
  all: rewrite (format_2f_encodable _ _ Hshown); simpl;
    rewrite <- ?app_assoc, ?Hpr; simpl; try reflexivity.
  rewrite <- ?app_assoc; simpl.
  destruct (lt_float confidence float_0_6) as [low | e]; simpl;
    rewrite <- ?app_assoc; simpl; [| reflexivity].
  unfold suggested_action.
  destruct (low || eq_str direction "flat" || eq_str sentiment "neutral");
    [| destruct (eq_str direction "long");
       [| destruct (eq_str direction "short")]];
    simpl; rewrite <- ?app_assoc; reflexivity.
Qed.

(** The same for fields that can be printed. *)
Lemma interpret_signal_printable w :
  fields_printable d = true →
  interpret_signal (PyDict d) w =
  match format_2f confidence with
  | Raises e => (Raises e, emit (report_head sentiment direction) w)
  | Returns shown =>
      match lt_float confidence float_0_6 with
      | Raises e =>
          (Raises e,
           emit (report_head sentiment direction ++ report_tail shown reason) w)
      | Returns low =>
          (Returns tt,
           emit (report_head sentiment direction ++ report_tail shown reason
                 ++ [ [Lit (suggested_action low direction sentiment)];
                      [Lit warning_msg] ]) w)
      end
  end.
Proof.
  unfold fields_printable.
  rewrite Hsentiment, Hdirection, Hreason. simpl.
  intros [[Hs Hd]%andb_true_iff Hr]%andb_true_iff.
  by rewrite interpret_signal_run, Hs, Hd, Hr.
Qed.

End InterpreterFacts.

Lemma suggested_action_rule low direction sentiment :
  let flat :=
    low = true ∨ direction = PyStr "flat" ∨ sentiment = PyStr "neutral" in
  let action := suggested_action low direction sentiment in
  (action = stay_flat_msg ↔ flat)
  ∧ (¬ flat → direction = PyStr "long" → action = long_msg)
  ∧ (¬ flat → direction = PyStr "short" → action = short_msg)
  ∧ (¬ flat → direction ≠ PyStr "long" → direction ≠ PyStr "short" →
     action = unclear_msg).
Proof.
  intros flat action. subst flat action. unfold suggested_action.
  rewrite <- !(eq_str_true direction), <- !(eq_str_true sentiment).
  destruct (eq_str direction "long") eqn:Hl,
    (eq_str direction "short") eqn:Hs.
  { apply eq_str_true in Hl, Hs. congruence. }
  all: destruct low, (eq_str direction "flat"), (eq_str sentiment "neutral").
  all: cbv [orb stay_flat_msg long_msg short_msg unclear_msg].
  all: intuition (discriminate || congruence).
Qed.

(** C2, amended: for every signal with the four keys whose confidence [.2f]
    formats (a float, or a bool or an int that converts to a float) and
    whose sentiment, direction and reason can be printed (none of them is a
    string that holds a lone surrogate), the interpreter returns after
    printing the report, one action and the warning.  The action is the
    stay-flat line exactly when [confidence < 0.6] or the direction is
    [flat] or the sentiment is [neutral]; otherwise it is the long line for
    direction [long], the short line for [short] and the direction-unclear
    line for anything else. *)
Theorem interpreter_decision_rule
    (d : pydict) sentiment confidence direction reason shown w :
  d !! "sentiment" = Some sentiment →
  d !! "confidence" = Some confidence →
  d !! "direction" = Some direction →
  d !! "reason" = Some reason →
  format_2f confidence = Returns shown →
  fields_printable d = true →
  ∃ low action,
    lt_float confidence float_0_6 = Returns low
    ∧ interpret_signal (PyDict d) w
      = (Returns tt,
         emit (report_head sentiment direction ++ report_tail shown reason
               ++ [ [Lit action]; [Lit warning_msg] ]) w)
    ∧ (action = stay_flat_msg ↔
       low = true ∨ direction = PyStr "flat" ∨ sentiment = PyStr "neutral")
    ∧ (¬ (low = true ∨ direction = PyStr "flat" ∨ sentiment = PyStr "neutral") →
       direction = PyStr "long" → action = long_msg)
    ∧ (¬ (low = true ∨ direction = PyStr "flat" ∨ sentiment = PyStr "neutral") →
       direction = PyStr "short" → action = short_msg)
    ∧ (¬ (low = true ∨ direction = PyStr "flat" ∨ sentiment = PyStr "neutral") →
       direction ≠ PyStr "long" → direction ≠ PyStr "short" →
       action = unclear_msg).
Proof.
  intros Hs Hc Hd Hr Hf Hp.
  destruct (format_2f_lt_float _ _ Hf) as [low Hlow].
  exists low, (suggested_action low direction sentiment).
  split; [exact Hlow |]. split.
  - rewrite (interpret_signal_printable _ _ _ _ _ Hs Hc Hd Hr _ Hp), Hf, Hlow.
    reflexivity.
  - apply suggested_action_rule.
Qed.

Lemma interpreter_decision_rule_witness :
  long_signal (PyFloat float_0_9) !! "sentiment" = Some (PyStr "bullish")
  ∧ long_signal (PyFloat float_0_9) !! "confidence" = Some (PyFloat float_0_9)
  ∧ long_signal (PyFloat float_0_9) !! "direction" = Some (PyStr "long")
  ∧ long_signal (PyFloat float_0_9) !! "reason" = Some (PyStr "x")
  ∧ format_2f (PyFloat float_0_9) = Returns (Fixed2 float_0_9)
  ∧ fields_printable (long_signal (PyFloat float_0_9)) = true
  ∧ ∃ low action,
    lt_float (PyFloat float_0_9) float_0_6 = Returns low
    ∧ interpret_signal (PyDict (long_signal (PyFloat float_0_9))) empty_world
      = (Returns tt,
         emit (report_head (PyStr "bullish") (PyStr "long")
               ++ report_tail (Fixed2 float_0_9) (PyStr "x")
               ++ [ [Lit action]; [Lit warning_msg] ]) empty_world)
    ∧ (action = stay_flat_msg ↔
       low = true ∨ PyStr "long" = PyStr "flat"
       ∨ PyStr "bullish" = PyStr "neutral")
    ∧ (¬ (low = true ∨ PyStr "long" = PyStr "flat"
          ∨ PyStr "bullish" = PyStr "neutral") →
       PyStr "long" = PyStr "long" → action = long_msg)
    ∧ (¬ (low = true ∨ PyStr "long" = PyStr "flat"
          ∨ PyStr "bullish" = PyStr "neutral") →
       PyStr "long" = PyStr "short" → action = short_msg)
    ∧ (¬ (low = true ∨ PyStr "long" = PyStr "flat"
          ∨ PyStr "bullish" = PyStr "neutral") →
       PyStr "long" ≠ PyStr "long" → PyStr "long" ≠ PyStr "short" →
       action = unclear_msg).
Proof.
  do 6 (split; [reflexivity |]).
  apply (interpreter_decision_rule (long_signal (PyFloat float_0_9)));
    reflexivity.
Defined.

(** The three literal cases of section 8 of the specification. *)
Example interpret_bullish_long :
  suggested_action false (PyStr "long") (PyStr "bullish") = long_msg
  ∧ lt_float (PyFloat float_0_9) float_0_6 = Returns false
  ∧ Json.loads "0.9" = Returns (PyFloat float_0_9).
Proof. repeat split. Qed.

Example interpret_neutral_overrides :
  suggested_action false (PyStr "long") (PyStr "neutral") = stay_flat_msg.
Proof. reflexivity. Qed.

Example interpret_low_confidence_overrides :
  Json.loads "0.3" = Returns (PyFloat (S754_finite false 5404319552844595 (-54)))
  ∧ lt_float (PyFloat (S754_finite false 5404319552844595 (-54))) float_0_6
    = Returns true
  ∧ suggested_action true (PyStr "short") (PyStr "bearish") = stay_flat_msg.
Proof. repeat split. Qed.

(** The literal [0.6] itself is not below the threshold. *)
Example confidence_at_threshold :
  Json.loads "0.6" = Returns (PyFloat float_0_6)
  ∧ lt_float (PyFloat float_0_6) float_0_6 = Returns false.
Proof. repeat split. Qed.

(** An [int] of 401 digits is a number that JSON decoding yields, is not
    below [0.6], and has no [float]: the format of line 82 raises
    [OverflowError] after three lines, and neither the long action nor any
    other is printed. *)
Lemma interpreter_huge_int_confidence_raises :
  Json.loads (signal_text "bullish" ("1" +:+ String.concat EmptyString (replicate 400 "0")) "long" "x")
  = Returns (PyDict (long_signal (PyInt huge_int)))
  ∧ required_keys ⊆ dom (long_signal (PyInt huge_int))
  ∧ lt_float (PyInt huge_int) float_0_6 = Returns false
  ∧ interpret_signal (PyDict (long_signal (PyInt huge_int))) empty_world
    = (Raises OverflowError,
       emit (report_head (PyStr "bullish") (PyStr "long")) empty_world)
  ∧ [Lit long_msg]
    ∉ stdout (snd (interpret_signal (PyDict (long_signal (PyInt huge_int)))
                     empty_world)).
Proof.
  assert (Hrun :
    interpret_signal (PyDict (long_signal (PyInt huge_int))) empty_world
    = (Raises OverflowError,
       emit (report_head (PyStr "bullish") (PyStr "long")) empty_world)).
  { rewrite (interpret_signal_run (long_signal (PyInt huge_int))
      (PyStr "bullish") (PyInt huge_int) (PyStr "long") (PyStr "x"));
      [| reflexivity ..].
    vm_compute. reflexivity. }
  split; [by vm_compute |].
  split; [by apply required_keys_present; vm_compute; eauto 10 |].
  split; [by vm_compute |].
  split; [exact Hrun |].
  rewrite Hrun. simpl. unfold report_head.
  intros H. repeat (apply elem_of_cons in H as [H | H]; [discriminate |]).
  by apply elem_of_nil in H.
Qed.

(** A record with the four keys and the confidence [high], a string: the
    format of line 82 raises [ValueError] after three lines. *)
Lemma interpreter_string_confidence_raises :
  Json.loads (signal_text "bullish" (quoted "high") "long" "x")
  = Returns (PyDict (long_signal (PyStr "high")))
  ∧ fst (parse_and_validate Json.loads
           (signal_text "bullish" (quoted "high") "long" "x") empty_world)
    = Returns (Some (PyDict (long_signal (PyStr "high"))))
  ∧ required_keys ⊆ dom (long_signal (PyStr "high"))
  ∧ interpret_signal (PyDict (long_signal (PyStr "high"))) empty_world
    = (Raises ValueError,
       emit (report_head (PyStr "bullish") (PyStr "long")) empty_world)
  ∧ ¬ ∃ w', interpret_signal (PyDict (long_signal (PyStr "high"))) empty_world
            = (Returns tt, w').
Proof.
  assert (Hrun :
    interpret_signal (PyDict (long_signal (PyStr "high"))) empty_world
    = (Raises ValueError,
       emit (report_head (PyStr "bullish") (PyStr "long")) empty_world)).
  { by rewrite (interpret_signal_run (long_signal (PyStr "high"))
      (PyStr "bullish") (PyStr "high") (PyStr "long") (PyStr "x")). }
  split; [reflexivity |].
  split; [by rewrite (validate_record Json.loads _ (long_signal (PyStr "high"))) |].
  split; [by apply required_keys_present; vm_compute; eauto 10 |].
  split; [exact Hrun |].
  rewrite Hrun. by intros [w' [=]].
Qed.

(** The other values that are no number fail in the same place. *)
Lemma interpret_signal_confidence_not_number (d : pydict) confidence w :
  required_keys ⊆ dom d →
  d !! "confidence" = Some confidence →
  (∀ shown, format_2f confidence ≠ Returns shown) →
  fields_printable d = true →
  ∃ e lines,
    interpret_signal (PyDict d) w = (Raises e, emit lines w)
    ∧ length lines = 3%nat.
Proof.
  intros ([s Hs] & _ & [dir Hd] & [r Hr])%required_keys_present Hc Hf Hp.
  rewrite (interpret_signal_printable _ _ _ _ _ Hs Hc Hd Hr _ Hp).
  destruct (format_2f confidence) as [shown | e]; [by destruct (Hf shown) |].
  by exists e, (report_head s dir).
Qed.

(** A record with the four keys, a float confidence and the sentiment that
    [json.loads] gives for the escape of a lone surrogate: the print of
    line 80 raises [UnicodeEncodeError] after the title line, and no action
    is printed. *)
Lemma interpreter_surrogate_sentiment_raises :
  Json.loads (signal_text "\ud800" "0.9" "long" "x")
  = Returns (PyDict (signal_of (PyStr lone_surrogate) (PyFloat float_0_9)
                       (PyStr "long") (PyStr "x")))
  ∧ required_keys
    ⊆ dom (signal_of (PyStr lone_surrogate) (PyFloat float_0_9)
             (PyStr "long") (PyStr "x"))
  ∧ interpret_signal
      (PyDict (signal_of (PyStr lone_surrogate) (PyFloat float_0_9)
                 (PyStr "long") (PyStr "x"))) empty_world
    = (Raises UnicodeEncodeError,
       emit [ [Lit (nl +:+ "--- AI Trading Signal ---")] ] empty_world).
Proof.
  split; [by vm_compute |].
  split; [by apply required_keys_present; vm_compute; eauto 10 |].
  by rewrite (interpret_signal_run _ (PyStr lone_surrogate)
                (PyFloat float_0_9) (PyStr "long") (PyStr "x")).
Qed.

(** C3, amended: for every record with the four required keys whose
    confidence [.2f] formats (a float, or a bool or an int that converts to
    a float) and whose sentiment, direction and reason can be printed (none
    of them is a string that holds a lone surrogate), whatever else the
    types and values of these three fields, the interpreter returns without
    raising after its eight calls of [print]. *)
Theorem interpreter_total_on_numeric_confidence
    (d : pydict) confidence shown w :
  required_keys ⊆ dom d →
  d !! "confidence" = Some confidence →
  format_2f confidence = Returns shown →
  fields_printable d = true →
  ∃ lines,
    interpret_signal (PyDict d) w = (Returns tt, emit lines w)
    ∧ length lines = 8%nat.
Proof.
  intros ([s Hs] & _ & [dir Hd] & [r Hr])%required_keys_present Hc Hf Hp.
  destruct (format_2f_lt_float _ _ Hf) as [low Hlow].
  rewrite (interpret_signal_printable _ _ _ _ _ Hs Hc Hd Hr _ Hp), Hf, Hlow.
  by eexists.
Qed.

Lemma interpreter_total_on_numeric_confidence_witness :
  required_keys ⊆ dom loose_signal
  ∧ loose_signal !! "confidence" = Some (PyFloat float_2_5)
  ∧ format_2f (PyFloat float_2_5) = Returns (Fixed2 float_2_5)
  ∧ fields_printable loose_signal = true
  ∧ ∃ lines,
    interpret_signal (PyDict loose_signal) empty_world
    = (Returns tt, emit lines empty_world)
    ∧ length lines = 8%nat.
Proof.
  assert (Hkeys : required_keys ⊆ dom loose_signal).
  { apply (bool_decide_unpack _). vm_compute. exact I. }
  split; [exact Hkeys |]. do 3 (split; [reflexivity |]).
  apply (interpreter_total_on_numeric_confidence loose_signal
           (PyFloat float_2_5) (Fixed2 float_2_5) empty_world Hkeys);
    reflexivity.
Defined.

(** A float and a bool always format; an [int] does when it converts. *)
Example format_2f_examples :
  format_2f (PyFloat S754_nan) = Returns (Fixed2 S754_nan)
  ∧ format_2f (PyBool true) = Returns (Fixed2 (S754_finite false 4503599627370496 (-52)))
  ∧ format_2f (PyInt (2 ^ 1024 - 2 ^ 970 - 1))
    = Returns (Fixed2 (S754_finite false 9007199254740991 971))
  ∧ format_2f (PyInt (2 ^ 1024 - 2 ^ 970)) = Raises OverflowError
  ∧ format_2f PyNone = Raises TypeError.
Proof. repeat split; vm_compute; reflexivity. Qed.

(** ** The recorder *)

(** The row dictionary of lines 133-140 becomes the record of its six
    values, in the order of the field names. *)
Lemma dict_to_list_row now headline sentiment direction confidence reason :
  dict_to_list
    (list_to_map
       [ ("timestamp", PyStr now);
         ("headline", PyStr headline);
         ("sentiment", sentiment);
         ("direction", direction);
         ("confidence", confidence);
         ("reason", reason) ])
  = Returns [ CellText now; CellText headline; csv_field sentiment;
              csv_field direction; csv_field confidence; csv_field reason ].
Proof. reflexivity. Qed.

Lemma with_file_same filename start content w :
  files w !! filename = Some (RegularFile start content) →
  with_file filename start content w = w.
Proof.
  intros H. destruct w as [out fs]. unfold with_file. simpl in *.
  by rewrite insert_id.
Qed.

Lemma with_file_twice filename s1 c1 s2 c2 w :
  with_file filename s2 c2 (with_file filename s1 c1 w)
  = with_file filename s2 c2 w.
Proof. unfold with_file. simpl. by rewrite insert_insert_eq. Qed.

Lemma files_with_file filename start content w :
  files (with_file filename start content w) !! filename
  = Some (RegularFile start content).
Proof. unfold with_file. simpl. apply lookup_insert_eq. Qed.

(** One call, by what the path names.  A missing file gets the header and
    then the record; a regular file gets the record at its end; a record
    that cannot be encoded raises after the header, if there is one, was
    written; a directory, or a path without its directory, makes [open]
    raise. *)
Lemma log_signal_run now headline (d : pydict) filename w :
  log_signal now headline (PyDict d) filename w =
  match files w !! filename with
  | None =>
      if record_encodable (data_record now headline d) then
        (Returns tt,
         with_file filename EmptyString [header; data_record now headline d] w)
      else (Raises UnicodeEncodeError, with_file filename EmptyString [header] w)
  | Some (RegularFile start content) =>
      if record_encodable (data_record now headline d) then
        (Returns tt,
         with_file filename start (content ++ [data_record now headline d]) w)
      else (Raises UnicodeEncodeError, w)
  | Some Directory => (Raises IsADirectoryError, w)
  | Some NoParent => (Raises FileNotFoundError, w)
  end.
Proof.
  unfold log_signal, get.
  cbv [bind lift writerow]. rewrite dict_to_list_row.
  fold (data_record now headline d).
  cbv [try_except_FileNotFoundError open_read ret].
  destruct (files w !! filename) as [[start content | |] |] eqn:Hf; simpl.
  - cbv [open_append writeheader write_record].
    rewrite Hf. simpl. rewrite Hf.
    by destruct (record_encodable (data_record now headline d)).
  - reflexivity.
  - cbv [open_append]. by rewrite Hf.
  - cbv [open_append writeheader write_record].
    rewrite Hf. simpl. rewrite lookup_insert_eq.
    change (record_encodable header) with true. simpl.
    rewrite lookup_insert_eq, !insert_insert_eq.
    by destruct (record_encodable (data_record now headline d)).
Qed.

(** A signal that is no [dict] has no [get]. *)
Lemma log_signal_not_dict now headline signal filename w :
  is_dict signal = false →
  log_signal now headline signal filename w = (Raises AttributeError, w).
Proof. by destruct signal. Qed.

(** A call that returns had a [dict], a record that can be encoded and a
    path that can be opened, and has put the record at the end of the log,
    behind the header if the log was missing. *)
Lemma log_signal_returns now headline signal filename w :
  fst (log_signal now headline signal filename w) = Returns tt →
  ∃ d, signal = PyDict d
    ∧ record_encodable (data_record now headline d) = true
    ∧ can_open (files w !! filename)
    ∧ log_signal now headline signal filename w
      = (Returns tt,
         match files w !! filename with
         | Some (RegularFile start content) =>
             with_file filename start
               (content ++ [data_record now headline d]) w
         | _ =>
             with_file filename EmptyString
               [header; data_record now headline d] w
         end).
Proof.
  destruct signal as [| | | | | | d]; try discriminate.
  rewrite log_signal_run. intros H. exists d. split; [reflexivity |].
  destruct (files w !! filename) as [[start content | |] |];
    try discriminate;
    by destruct (record_encodable (data_record now headline d)).
Qed.

(** The converse: these three conditions make the call return. *)
Lemma log_signal_succeeds now headline (d : pydict) filename w :
  can_open (files w !! filename) →
  record_encodable (data_record now headline d) = true →
  fst (log_signal now headline (PyDict d) filename w) = Returns tt.
Proof.
  intros Hopen Henc. rewrite log_signal_run, Henc.
  by destruct (files w !! filename) as [[start content | |] |].
Qed.

(** The calls of a process that all return, on a log that exists: the
    records go to its end, in order. *)
Lemma log_signals_existing calls filename start content w :
  files w !! filename = Some (RegularFile start content) →
  fst (log_signals calls filename w) = Returns tt →
  log_signals calls filename w
  = (Returns tt,
     with_file filename start (content ++ (call_record <$> calls)) w).
Proof.
  revert content w.
  induction calls as [| [[now headline] signal] rest IH];
    intros content w Hf Hret; simpl.
  - rewrite app_nil_r. by rewrite with_file_same.
  - simpl in Hret. cbv [bind] in *.
    destruct (log_signal now headline signal filename w) as [[[] | e] w1]
      eqn:Hcall; [| discriminate].
    destruct (log_signal_returns now headline signal filename w)
      as (d & -> & _ & _ & Hrun); [by rewrite Hcall |].
    rewrite Hcall, Hf in Hrun. injection Hrun as ->.
    rewrite (IH (content ++ [data_record now headline d]));
      [| apply files_with_file | exact Hret].
    by rewrite with_file_twice, <- app_assoc.
Qed.

(** The calls of a process that all return, on a log that does not
    exist. *)
Lemma log_signals_fresh call rest filename w :
  files w !! filename = None →
  fst (log_signals (call :: rest) filename w) = Returns tt →
  log_signals (call :: rest) filename w
  = (Returns tt,
     with_file filename EmptyString
       (header :: (call_record <$> call :: rest)) w).
Proof.
  intros Hf Hret. destruct call as [[now headline] signal].
  simpl in *. cbv [bind] in *.
  destruct (log_signal now headline signal filename w) as [[[] | e] w1]
    eqn:Hcall; [| discriminate].
  destruct (log_signal_returns now headline signal filename w)
    as (d & -> & _ & _ & Hrun); [by rewrite Hcall |].
  rewrite Hcall, Hf in Hrun. injection Hrun as ->.
  rewrite (log_signals_existing rest filename EmptyString
             [header; data_record now headline d]);
    [| apply files_with_file | exact Hret].
  by rewrite with_file_twice.
Qed.

(** Calls with a [dict] and a record that can be encoded all return, on a
    path that can be opened. *)
Lemma log_signals_succeed calls filename w :
  can_open (files w !! filename) →
  Forall (λ call, is_dict call.2 = true
                  ∧ record_encodable (call_record call) = true) calls →
  fst (log_signals calls filename w) = Returns tt.
Proof.
  intros Hopen Hcalls. revert w Hopen.
  induction Hcalls as [| [[now headline] signal] rest [Hd Henc] _ IH];
    intros w Hopen; [reflexivity |].
  destruct signal as [| | | | | | d]; try discriminate.
  change (record_encodable (data_record now headline d) = true) in Henc.
  simpl. cbv [bind]. rewrite log_signal_run, Henc.
  destruct (files w !! filename) as [[start content | |] |]; try done;
    apply IH; by rewrite files_with_file.
Qed.

(** With no call at all the log is not created: after zero calls from a
    log that does not exist there is no file, and so no header row. *)
Lemma recorder_no_call_no_header :
  files empty_world !! default_filename = None
  ∧ log_signals [] default_filename empty_world = (Returns tt, empty_world)
  ∧ files (snd (log_signals [] default_filename empty_world))
      !! default_filename
    = None.
Proof. repeat split. Qed.

(** C5, amended: from a log that does not exist, one or more calls
    [calls1] of a process that all return leave a file that holds the
    header, which names the six columns, followed by one record per call in
    the order of the calls, and nothing else; the calls [calls2] of a later
    process that all return add their records after these, with no second
    header; and a call that returns on a log that exists, whatever text
    [start] and records [content] it holds, keeps these bytes and writes
    the line of one record, and no header, behind them. *)
Theorem recorder_append_law calls1 calls2 filename w
    now headline signal start content w' :
  files w !! filename = None →
  calls1 ≠ [] →
  fst (log_signals calls1 filename w) = Returns tt →
  fst (log_signals calls2 filename
         (new_process (snd (log_signals calls1 filename w)))) = Returns tt →
  files w' !! filename = Some (RegularFile start content) →
  fst (log_signal now headline signal filename w') = Returns tt →
  log_signals calls1 filename w
  = (Returns tt,
     with_file filename EmptyString (header :: (call_record <$> calls1)) w)
  ∧ header = CellText <$> fieldnames
  ∧ log_signals calls2 filename
      (new_process (snd (log_signals calls1 filename w)))
    = (Returns tt,
       with_file filename EmptyString
         (header :: (call_record <$> calls1 ++ calls2)) (new_process w))
  ∧ log_signal now headline signal filename w'
    = (Returns tt,
       with_file filename start
         (content ++ [call_record (now, headline, signal)]) w').
Proof.
  intros Hf Hne H1 H2 Hf' H3.
  destruct calls1 as [| call rest]; [done |].
  rewrite (log_signals_fresh _ _ _ _ Hf H1) in H2 |- *.
  split; [reflexivity |]. split; [reflexivity |]. split.
  - simpl snd in *.
    rewrite (log_signals_existing calls2 filename EmptyString
               (header :: (call_record <$> call :: rest)));
      [| apply lookup_insert_eq | exact H2].
    unfold with_file, new_process. simpl.
    by rewrite insert_insert_eq, fmap_app.
  - destruct (log_signal_returns _ _ _ _ _ H3) as (d & -> & _ & _ & Hrun).
    by rewrite Hrun, Hf'.
Qed.

Lemma recorder_append_law_witness :
  files empty_world !! default_filename = None
  ∧ first_calls ≠ []
  ∧ fst (log_signals first_calls default_filename empty_world) = Returns tt
  ∧ fst (log_signals later_calls default_filename
           (new_process
              (snd (log_signals first_calls default_filename empty_world))))
    = Returns tt
  ∧ files (with_file default_filename "timestamp,headline" [header] empty_world)
      !! default_filename
    = Some (RegularFile "timestamp,headline" [header])
  ∧ fst (log_signal "2025-01-03T08:00:00" "Gilts rally" (PyDict loose_signal)
           default_filename
           (with_file default_filename "timestamp,headline" [header]
              empty_world))
    = Returns tt
  ∧ log_signals first_calls default_filename empty_world
    = (Returns tt,
       with_file default_filename EmptyString
         (header :: (call_record <$> first_calls)) empty_world)
  ∧ header = CellText <$> fieldnames
  ∧ log_signals later_calls default_filename
      (new_process (snd (log_signals first_calls default_filename empty_world)))
    = (Returns tt,
       with_file default_filename EmptyString
         (header :: (call_record <$> first_calls ++ later_calls))
         (new_process empty_world))
  ∧ log_signal "2025-01-03T08:00:00" "Gilts rally" (PyDict loose_signal)
      default_filename
      (with_file default_filename "timestamp,headline" [header] empty_world)
    = (Returns tt,
       with_file default_filename "timestamp,headline"
         ([header]
          ++ [call_record
                ("2025-01-03T08:00:00", "Gilts rally", PyDict loose_signal)])
         (with_file default_filename "timestamp,headline" [header]
            empty_world)).
Proof.
  split; [reflexivity |]. split; [discriminate |].
  split; [vm_compute; reflexivity |]. split; [vm_compute; reflexivity |].
  split; [reflexivity |]. split; [vm_compute; reflexivity |].
  apply (recorder_append_law first_calls later_calls default_filename
           empty_world "2025-01-03T08:00:00" "Gilts rally"
           (PyDict loose_signal) "timestamp,headline" [header]
           (with_file default_filename "timestamp,headline" [header]
              empty_world));
    [reflexivity | discriminate | vm_compute; reflexivity
    | vm_compute; reflexivity | reflexivity | vm_compute; reflexivity].
Defined.

(** The log of the example, record by record. *)
Example recorder_append_example :
  files (snd (log_signals later_calls default_filename
                (new_process
                   (snd (log_signals first_calls default_filename empty_world)))))
    !! default_filename
  = Some (RegularFile EmptyString
      [ CellText <$> ["timestamp"; "headline"; "sentiment"; "direction";
                      "confidence"; "reason"];
        [ CellText "2025-01-01T09:00:00.000001";
          CellText "Bank of England raises rates"; CellText "bullish";
          CellText "long"; CellStr (PyFloat float_0_9); CellText "x" ];
        [ CellText "2025-01-01T09:05:00.000002";
          CellText "UK inflation, GDP and jobs data due"; CellText "neutral";
          CellText EmptyString; CellText EmptyString; CellText EmptyString ];
        [ CellText "2025-01-02T10:00:00.000003"; CellText "Sterling slides";
          CellText "bearish"; CellText "short"; CellStr (PyInt 1);
          CellText "y" ] ]).
Proof. vm_compute. reflexivity. Qed.

(** C9, amended: the existence of the log is tested by opening it for
    reading, so a log that exists and is empty, of zero bytes, counts as
    existing and the call writes no header.  When the record can be encoded
    the call returns and the file holds the one data record and nothing
    else; when it cannot the call raises [UnicodeEncodeError] and the file
    stays empty. *)
Theorem log_signal_empty_file_no_header now headline (d : pydict) filename w :
  files w !! filename = Some (RegularFile EmptyString []) →
  try_except_FileNotFoundError (open_read filename ;;; ret true) (ret false) w
  = (Returns true, w)
  ∧ (record_encodable (data_record now headline d) = true →
     log_signal now headline (PyDict d) filename w
     = (Returns tt,
        with_file filename EmptyString [data_record now headline d] w))
  ∧ (record_encodable (data_record now headline d) = false →
     log_signal now headline (PyDict d) filename w
     = (Raises UnicodeEncodeError, w)).
Proof.
  intros Hf. split; [| split].
  - cbv [try_except_FileNotFoundError bind open_read ret]. by rewrite Hf.
  - intros Henc. by rewrite log_signal_run, Hf, Henc.
  - intros Henc. by rewrite log_signal_run, Hf, Henc.
Qed.

Lemma log_signal_empty_file_no_header_witness :
  files (with_file default_filename EmptyString [] empty_world)
    !! default_filename
  = Some (RegularFile EmptyString [])
  ∧ record_encodable
      (data_record "2025-01-03T08:00:00" "Gilts rally" loose_signal) = true
  ∧ try_except_FileNotFoundError
      (open_read default_filename ;;; ret true) (ret false)
      (with_file default_filename EmptyString [] empty_world)
    = (Returns true, with_file default_filename EmptyString [] empty_world)
  ∧ (record_encodable
       (data_record "2025-01-03T08:00:00" "Gilts rally" loose_signal) = true →
     log_signal "2025-01-03T08:00:00" "Gilts rally" (PyDict loose_signal)
       default_filename (with_file default_filename EmptyString [] empty_world)
     = (Returns tt,
        with_file default_filename EmptyString
          [data_record "2025-01-03T08:00:00" "Gilts rally" loose_signal]
          (with_file default_filename EmptyString [] empty_world)))
  ∧ (record_encodable
       (data_record "2025-01-03T08:00:00" "Gilts rally" loose_signal) = false →
     log_signal "2025-01-03T08:00:00" "Gilts rally" (PyDict loose_signal)
       default_filename (with_file default_filename EmptyString [] empty_world)
     = (Raises UnicodeEncodeError,
        with_file default_filename EmptyString [] empty_world)).
Proof.
  split; [reflexivity |]. split; [reflexivity |].
  apply (log_signal_empty_file_no_header "2025-01-03T08:00:00" "Gilts rally"
           loose_signal default_filename
           (with_file default_filename EmptyString [] empty_world)).
  reflexivity.
Defined.

(** A log that exists and is empty, and the signal whose reason holds a
    lone surrogate: the call raises [UnicodeEncodeError], and the file is
    as empty as before, with no data row. *)
Lemma log_signal_empty_file_surrogate_raises :
  Json.loads surrogate_text = Returns (PyDict surrogate_signal)
  ∧ files (with_file default_filename EmptyString [] empty_world)
      !! default_filename
    = Some (RegularFile EmptyString [])
  ∧ log_signal "2025-01-03T08:00:00" "Gilts rally" (PyDict surrogate_signal)
      default_filename (with_file default_filename EmptyString [] empty_world)
    = (Raises UnicodeEncodeError,
       with_file default_filename EmptyString [] empty_world).
Proof.
  split; [by vm_compute |]. split; [reflexivity |].
  by rewrite log_signal_run.
Qed.

(** The cells of the record that [log_signal] appends, by column. *)
Lemma data_record_columns now headline (d : pydict) :
  column "timestamp" (data_record now headline d) = Some (CellText now)
  ∧ column "headline" (data_record now headline d) = Some (CellText headline)
  ∧ ∀ name, name ∈ required_keys →
      column name (data_record now headline d)
      = Some (csv_field (default PyNone (d !! name))).
Proof.
  split; [reflexivity |]. split; [reflexivity |].
  intros name. unfold required_keys.
  rewrite !elem_of_union, !elem_of_singleton.
  intros [[[-> | ->] | ->] | ->]; reflexivity.
Qed.

Lemma data_record_length now headline (d : pydict) :
  length (data_record now headline d) = length fieldnames.
Proof. reflexivity. Qed.

(** The record depends on the signal through the four fields alone. *)
Lemma data_record_agree now headline (d d' : pydict) :
  (∀ name, name ∈ required_keys → d !! name = d' !! name) →
  data_record now headline d = data_record now headline d'.
Proof.
  intros H. unfold data_record.
  by rewrite !H
    by (unfold required_keys; rewrite !elem_of_union, !elem_of_singleton;
        tauto).
Qed.

(** The record can be encoded when the time, the headline and the fields
    that are strings can: a field that is missing, or is no string, never
    stands in the way. *)
Lemma data_record_encodable now headline (d : pydict) :
  encodable now = true →
  encodable headline = true →
  (∀ name s, name ∈ required_keys → d !! name = Some (PyStr s) →
     encodable s = true) →
  record_encodable (data_record now headline d) = true.
Proof.
  intros Hnow Hheadline Hfields.
  assert (Hcell : ∀ name, name ∈ required_keys →
            cell_encodable (csv_field (default PyNone (d !! name))) = true).
  { intros name Hname.
    destruct (d !! name) as [[| | | | s | |] |] eqn:Hv; simpl; try done.
    by apply (Hfields name). }
  unfold record_encodable, data_record. simpl.
  rewrite Hnow, Hheadline.
  rewrite !Hcell
    by (unfold required_keys; rewrite !elem_of_union, !elem_of_singleton;
        tauto).
  reflexivity.
Qed.

Lemma required_part_lookup (d : pydict) name :
  name ∈ required_keys → required_part d !! name = d !! name.
Proof.
  intros H. unfold required_part. apply option_eq. intros v.
  rewrite map_lookup_filter_Some. simpl. tauto.
Qed.

Lemma required_part_dom (d : pydict) : dom (required_part d) ⊆ required_keys.
Proof.
  intros name [v Hv]%elem_of_dom. unfold required_part in Hv.
  by apply map_lookup_filter_Some in Hv as [_ ?].
Qed.

(** When the path can be opened and the record can be encoded, the call
    returns and the log ends with the record of the signal. *)
Lemma log_signal_appends now headline (d : pydict) filename w :
  can_open (files w !! filename) →
  record_encodable (data_record now headline d) = true →
  ∃ start content,
    log_signal now headline (PyDict d) filename w
    = (Returns tt,
       with_file filename start (content ++ [data_record now headline d]) w).
Proof.
  intros Hf Henc. rewrite log_signal_run, Henc.
  destruct (files w !! filename) as [[start content | |] |]; try done.
  - by exists start, content.
  - by exists EmptyString, [header].
Qed.

(** The signal [surrogate_signal], from which two fields are absent: on a
    log that does not exist the call raises [UnicodeEncodeError] and leaves
    the header alone in the file, with no row for the signal.  And a signal
    with the sentiment alone, on a path whose directory does not exist: the
    call raises [FileNotFoundError] and writes nothing. *)
Lemma log_signal_missing_fields_raises :
  Json.loads surrogate_text = Returns (PyDict surrogate_signal)
  ∧ surrogate_signal !! "confidence" = None
  ∧ surrogate_signal !! "direction" = None
  ∧ log_signal "2025-01-03T08:00:00" "Gilts rally" (PyDict surrogate_signal)
      default_filename empty_world
    = (Raises UnicodeEncodeError,
       with_file default_filename EmptyString [header] empty_world)
  ∧ log_signal "2025-01-03T08:00:00" "Gilts rally"
      (PyDict (<["sentiment" := PyStr "bullish"]> ∅))
      "nodir/log.csv" (World [] {[ "nodir/log.csv" := NoParent ]})
    = (Raises FileNotFoundError, World [] {[ "nodir/log.csv" := NoParent ]}).
Proof.
  split; [by vm_compute |]. split; [reflexivity |]. split; [reflexivity |].
  split; by rewrite log_signal_run.
Qed.

(** C6, amended: for every headline and every signal [d], whichever of
    the four fields it lacks, when the log can be opened and the time, the
    headline and the fields that are present can be encoded, the call
    returns without raising and puts at the end of the log a record in which
    each missing field is the empty cell and each present field its
    value. *)
Theorem log_signal_tolerates_missing_fields
    now headline (d : pydict) filename w :
  can_open (files w !! filename) →
  record_encodable (data_record now headline d) = true →
  ∃ start content,
    log_signal now headline (PyDict d) filename w
    = (Returns tt,
       with_file filename start (content ++ [data_record now headline d]) w)
    ∧ (∀ name, name ∈ required_keys → d !! name = None →
       column name (data_record now headline d) = Some (CellText EmptyString))
    ∧ (∀ name v, name ∈ required_keys → d !! name = Some v →
       column name (data_record now headline d) = Some (csv_field v)).
Proof.
  intros Hf Henc.
  destruct (data_record_columns now headline d) as (_ & _ & Hcol).
  destruct (log_signal_appends now headline d filename w Hf Henc)
    as (start & content & Hrun).
  exists start, content.
  split; [exact Hrun |]. split.
  - intros name Hname Hnone. by rewrite (Hcol name Hname), Hnone.
  - intros name v Hname Hsome. by rewrite (Hcol name Hname), Hsome.
Qed.

Lemma log_signal_tolerates_missing_fields_witness :
  can_open (files empty_world !! default_filename)
  ∧ record_encodable
      (data_record "2025-01-03T08:00:00" "Gilts rally"
         (<["sentiment" := PyStr "bullish"]> ∅)) = true
  ∧ ∃ start content,
    log_signal "2025-01-03T08:00:00" "Gilts rally"
      (PyDict (<["sentiment" := PyStr "bullish"]> ∅)) default_filename
      empty_world
    = (Returns tt,
       with_file default_filename start
         (content ++ [data_record "2025-01-03T08:00:00" "Gilts rally"
                        (<["sentiment" := PyStr "bullish"]> ∅)])
         empty_world)
    ∧ (∀ name, name ∈ required_keys →
       (<["sentiment" := PyStr "bullish"]> ∅ : pydict) !! name = None →
       column name (data_record "2025-01-03T08:00:00" "Gilts rally"
                      (<["sentiment" := PyStr "bullish"]> ∅))
       = Some (CellText EmptyString))
    ∧ (∀ name v, name ∈ required_keys →
       (<["sentiment" := PyStr "bullish"]> ∅ : pydict) !! name = Some v →
       column name (data_record "2025-01-03T08:00:00" "Gilts rally"
                      (<["sentiment" := PyStr "bullish"]> ∅))
       = Some (csv_field v)).
Proof.
  split; [vm_compute; exact I |]. split; [reflexivity |].
  apply (log_signal_tolerates_missing_fields "2025-01-03T08:00:00"
           "Gilts rally" (<["sentiment" := PyStr "bullish"]> ∅)
           default_filename empty_world);
    [vm_compute; exact I | reflexivity].
Defined.

(** The record of a signal without [reason], [direction] and [confidence]. *)
Example log_signal_missing_fields_example :
  data_record "2025-01-03T08:00:00" "Gilts rally"
    (<["sentiment" := PyStr "bullish"]> ∅)
  = [ CellText "2025-01-03T08:00:00"; CellText "Gilts rally";
      CellText "bullish"; CellText EmptyString; CellText EmptyString;
      CellText EmptyString ].
Proof. reflexivity. Qed.

(** C10: for every signal [d], with whatever keys beyond the four fields,
    the call does what it does on [d] without these keys, on every file
    system and however it ends; and when it returns, the record that it has
    appended has the six columns of the field names and nothing else: the
    time, the headline and the four fields. *)
Theorem log_signal_ignores_extra_keys now headline (d : pydict) filename w :
  log_signal now headline (PyDict d) filename w
  = log_signal now headline (PyDict (required_part d)) filename w
  ∧ dom (required_part d) ⊆ required_keys
  ∧ (∀ w', log_signal now headline (PyDict d) filename w = (Returns tt, w') →
     ∃ start content,
       w' = with_file filename start
              (content ++ [data_record now headline d]) w
       ∧ data_record now headline d
         = [ CellText now; CellText headline;
             csv_field (default PyNone (d !! "sentiment"));
             csv_field (default PyNone (d !! "direction"));
             csv_field (default PyNone (d !! "confidence"));
             csv_field (default PyNone (d !! "reason")) ]
       ∧ length (data_record now headline d) = length fieldnames
       ∧ fieldnames = [ "timestamp"; "headline"; "sentiment"; "direction";
                        "confidence"; "reason" ]).
Proof.
  split; [| split; [apply required_part_dom |]].
  - rewrite !log_signal_run.
    by rewrite (data_record_agree now headline (required_part d) d)
      by (intros; by apply required_part_lookup).
  - intros w' Hrun.
    destruct (log_signal_returns now headline (PyDict d) filename w)
      as (d' & [= <-] & _ & _ & Hw); [by rewrite Hrun |].
    rewrite Hrun in Hw. injection Hw as ->.
    destruct (files w !! filename) as [[start content | |] |];
      [by exists start, content | by exists EmptyString, [header] ..].
Qed.

Lemma log_signal_ignores_extra_keys_witness :
  log_signal "2025-01-02T10:00:00.000003" "Sterling slides"
    (PyDict (<["unit" := PyStr "pips"]> loose_signal)) default_filename
    empty_world
  = (Returns tt,
     with_file default_filename EmptyString
       [ header;
         data_record "2025-01-02T10:00:00.000003" "Sterling slides"
           (<["unit" := PyStr "pips"]> loose_signal) ] empty_world)
  ∧ log_signal "2025-01-02T10:00:00.000003" "Sterling slides"
      (PyDict (<["unit" := PyStr "pips"]> loose_signal)) default_filename
      empty_world
    = log_signal "2025-01-02T10:00:00.000003" "Sterling slides"
        (PyDict (required_part (<["unit" := PyStr "pips"]> loose_signal)))
        default_filename empty_world
  ∧ dom (required_part (<["unit" := PyStr "pips"]> loose_signal))
    ⊆ required_keys
  ∧ (∀ w',
     log_signal "2025-01-02T10:00:00.000003" "Sterling slides"
       (PyDict (<["unit" := PyStr "pips"]> loose_signal)) default_filename
       empty_world = (Returns tt, w') →
     ∃ start content,
       w' = with_file default_filename start
              (content ++ [data_record "2025-01-02T10:00:00.000003"
                             "Sterling slides"
                             (<["unit" := PyStr "pips"]> loose_signal)])
              empty_world
       ∧ data_record "2025-01-02T10:00:00.000003" "Sterling slides"
           (<["unit" := PyStr "pips"]> loose_signal)
         = [ CellText "2025-01-02T10:00:00.000003"; CellText "Sterling slides";
             csv_field (default PyNone
               ((<["unit" := PyStr "pips"]> loose_signal : pydict) !! "sentiment"));
             csv_field (default PyNone
               ((<["unit" := PyStr "pips"]> loose_signal : pydict) !! "direction"));
             csv_field (default PyNone
               ((<["unit" := PyStr "pips"]> loose_signal : pydict) !! "confidence"));
             csv_field (default PyNone
               ((<["unit" := PyStr "pips"]> loose_signal : pydict) !! "reason")) ]
       ∧ length (data_record "2025-01-02T10:00:00.000003" "Sterling slides"
                   (<["unit" := PyStr "pips"]> loose_signal))
         = length fieldnames
       ∧ fieldnames = [ "timestamp"; "headline"; "sentiment"; "direction";
                        "confidence"; "reason" ]).
Proof.
  split; [by rewrite log_signal_run |].
  apply (log_signal_ignores_extra_keys "2025-01-02T10:00:00.000003"
           "Sterling slides" (<["unit" := PyStr "pips"]> loose_signal)
           default_filename empty_world).
Defined.

(** An extra key leaves no trace in the record. *)
Example log_signal_extra_key_example :
  data_record "2025-01-02T10:00:00.000003" "Sterling slides"
    (<["unit" := PyStr "pips"]> loose_signal)
  = [ CellText "2025-01-02T10:00:00.000003"; CellText "Sterling slides";
      CellText "xyz"; CellText "up"; CellStr (PyFloat float_2_5);
      CellText "x" ].
Proof. reflexivity. Qed.

(** ** The prompt *)

Lemma append_cons x (a b : string) : String x a +:+ b = String x (a +:+ b).
Proof. reflexivity. Qed.

Lemma append_nil (b : string) : EmptyString +:+ b = b.
Proof. reflexivity. Qed.

Lemma append_assoc (a b c : string) : (a +:+ b) +:+ c = a +:+ b +:+ c.
Proof.
  induction a as [| x a IH]; [done |].
  by rewrite !append_cons, IH.
Qed.

Lemma prefix_split (p s : string) :
  String.prefix p s = true → ∃ post, s = p +:+ post.
Proof.
  revert s. induction p as [| x p IH]; intros s H.
  - by exists s.
  - destruct s as [| y s]; [discriminate |]. simpl in H.
    destruct (Ascii.ascii_dec x y) as [-> | Hne]; [| discriminate].
    destruct (IH s H) as [post ->]. by exists post.
Qed.

Lemma split_prefix (p post : string) : String.prefix p (p +:+ post) = true.
Proof.
  induction p as [| x p IH].
  - rewrite append_nil. by destruct post.
  - rewrite append_cons. simpl. by destruct (Ascii.ascii_dec x x).
Qed.

Lemma contains_prefix (hay needle : string) :
  String.prefix needle hay = true → contains hay needle = true.
Proof. intros H. destruct hay; cbn [contains]; by rewrite H. Qed.

Lemma contains_substring_of (hay needle : string) :
  contains hay needle = true ↔ substring_of needle hay.
Proof.
  split.
  - induction hay as [| x hay IH]; cbn [contains].
    + rewrite orb_false_r. intros [post H]%prefix_split.
      by exists EmptyString, post.
    + intros [[post H]%prefix_split | H]%orb_true_iff.
      * by exists EmptyString, post.
      * destruct (IH H) as (pre & post & ->). by exists (String x pre), post.
  - intros (pre & post & ->).
    induction pre as [| x pre IH].
    + rewrite append_nil. apply contains_prefix, split_prefix.
    + rewrite append_cons. cbn [contains]. by rewrite IH, orb_true_r.
Qed.

Lemma substring_of_app_l (needle a b : string) :
  substring_of needle a → substring_of needle (a +:+ b).
Proof.
  intros (pre & post & ->). exists pre, (post +:+ b).
  by rewrite !append_assoc.
Qed.

Lemma substring_of_template (needle headline : string) :
  contains (unlines prompt_template) needle = true →
  substring_of needle (build_prompt headline).
Proof.
  intros H. apply substring_of_app_l. by apply contains_substring_of.
Qed.

(** C7: for every headline, non-empty or not, the prompt holds the headline
    as it is between double quotes, the four field names of the schema,
    also as the quoted literals of the template, and the role of a
    systematic trading assistant; it ends with the line of the headline. *)
Theorem prompt_contains_headline_and_schema (headline : string) :
  substring_of (quoted headline) (build_prompt headline)
  ∧ substring_of headline (build_prompt headline)
  ∧ substring_of (quoted "sentiment") (build_prompt headline)
  ∧ substring_of (quoted "confidence") (build_prompt headline)
  ∧ substring_of (quoted "direction") (build_prompt headline)
  ∧ substring_of (quoted "reason") (build_prompt headline)
  ∧ substring_of "sentiment" (build_prompt headline)
  ∧ substring_of "confidence" (build_prompt headline)
  ∧ substring_of "direction" (build_prompt headline)
  ∧ substring_of "reason" (build_prompt headline)
  ∧ substring_of "systematic trading assistant" (build_prompt headline)
  ∧ ∃ pre, build_prompt headline
           = pre +:+ "Headline: " +:+ quoted headline +:+ nl.
Proof.
  split.
  { exists (unlines prompt_template +:+ "Headline: "), nl.
    unfold build_prompt. by rewrite !append_assoc. }
  split.
  { exists (unlines prompt_template +:+ "Headline: " +:+ dq), (dq +:+ nl).
    unfold build_prompt, quoted. by rewrite !append_assoc. }
  repeat split; try (by apply substring_of_template; vm_compute).
  by exists (unlines prompt_template).
Qed.

(** The prompt of a headline, run. *)
Example prompt_example :
  contains (build_prompt "Bank of England raises rates")
    (quoted "Bank of England raises rates") = true
  ∧ contains (build_prompt "Bank of England raises rates") "sentiment" = true
  ∧ contains (build_prompt "Bank of England raises rates") "GBP/JPY" = false.
Proof. repeat split; vm_compute; reflexivity. Qed.

(** * Further properties of the code *)

(** ** The interpreter on records that it was not written for *)

Lemma first_missing_none (d : pydict) :
  first_missing d = None ↔ required_keys ⊆ dom d.
Proof.
  rewrite required_keys_present. unfold first_missing, lookup_order. simpl.
  destruct (d !! "sentiment"), (d !! "confidence"), (d !! "direction"),
    (d !! "reason"); simpl; split; try discriminate; try done;
    intros (H1 & H2 & H3 & H4);
    by (destruct H1 as [? [=]] || destruct H2 as [? [=]]
        || destruct H3 as [? [=]] || destruct H4 as [? [=]]).
Qed.

Lemma first_missing_run (d : pydict) k w :
  first_missing d = Some k →
  d !! k = None ∧ interpret_signal (PyDict d) w = (Raises (KeyError k), w).
Proof.
  unfold first_missing, lookup_order, interpret_signal, getitem. simpl.
  destruct (d !! "sentiment") eqn:Hs; simpl; [| by intros [= <-]].
  destruct (d !! "confidence") eqn:Hc; simpl; [| by intros [= <-]].
  destruct (d !! "direction") eqn:Hd; simpl; [| by intros [= <-]].
  destruct (d !! "reason") eqn:Hr; simpl; [discriminate | by intros [= <-]].
Qed.

(** X1: a record that lacks a required key makes the interpreter raise
    [KeyError] for the first key that is missing, in the order sentiment,
    confidence, direction, reason of lines 74-77, before anything is
    printed. *)
Theorem interpret_signal_missing_key (d : pydict) w :
  required_keys ⊈ dom d →
  ∃ k, first_missing d = Some k
       ∧ k ∈ lookup_order
       ∧ d !! k = None
       ∧ interpret_signal (PyDict d) w = (Raises (KeyError k), w).
Proof.
  intros Hd. destruct (first_missing d) as [k |] eqn:Hk.
  - exists k. destruct (first_missing_run d k w Hk) as [Hnone Hrun].
    split; [done |]. split; [| done].
    unfold first_missing in Hk.
    destruct (list_find _ lookup_order) as [[i k'] |] eqn:Hf; [| done].
    simpl in Hk. injection Hk as ->.
    apply list_find_Some in Hf as (Hi & _). by eapply list_elem_of_lookup_2.
  - by apply first_missing_none in Hk.
Qed.

Lemma interpret_signal_missing_key_witness :
  required_keys ⊈ dom (<["sentiment" := PyStr "bullish"]> (∅ : pydict))
  ∧ ∃ k, first_missing (<["sentiment" := PyStr "bullish"]> ∅) = Some k
       ∧ k ∈ lookup_order
       ∧ (<["sentiment" := PyStr "bullish"]> ∅ : pydict) !! k = None
       ∧ interpret_signal (PyDict (<["sentiment" := PyStr "bullish"]> ∅))
           empty_world
         = (Raises (KeyError k), empty_world).
Proof.
  assert (H : required_keys ⊈ dom (<["sentiment" := PyStr "bullish"]> (∅ : pydict))).
  { apply (bool_decide_unpack _). vm_compute. exact I. }
  split; [exact H |].
  exact (interpret_signal_missing_key _ empty_world H).
Defined.

(** The exception of [.2f] by the type of the value. *)
Lemma format_2f_raises v e :
  format_2f v = Raises e →
  (∃ s, v = PyStr s) ∧ e = ValueError
  ∨ (∃ n, v = PyInt n ∧ float_of_int n = Raises OverflowError)
    ∧ e = OverflowError
  ∨ (v = PyNone ∨ (∃ l, v = PyList l) ∨ ∃ m, v = PyDict m) ∧ e = TypeError.
Proof.
  destruct v as [| [] | n | x | s | l | m]; simpl; try discriminate.
  - intros [= <-]. right. right. eauto.
  - unfold float_of_int.
    destruct (binary_normalize 53 1024 n 0 false) eqn:Hn; simpl;
      try discriminate.
    intros [= <-]. right. left. split; [| done]. exists n.
    split; [done |]. unfold float_of_int. by rewrite Hn.
  - intros [= <-]. left. eauto.
  - intros [= <-]. right. right. eauto 6.
  - intros [= <-]. right. right. eauto 6.
Qed.

(** X2: for a record with the four keys whose sentiment and direction
    can be printed and whose confidence the format [.2f] of line 82
    refuses, the interpreter prints the title, the sentiment and the
    direction, then raises, with no action printed: [ValueError] for a
    string, [OverflowError] for an [int] beyond the floats, [TypeError] for
    [None], a list or a dict. *)
Theorem interpret_signal_confidence_error
    (d : pydict) sentiment confidence direction reason e w :
  d !! "sentiment" = Some sentiment →
  d !! "confidence" = Some confidence →
  d !! "direction" = Some direction →
  d !! "reason" = Some reason →
  printable sentiment = true →
  printable direction = true →
  format_2f confidence = Raises e →
  interpret_signal (PyDict d) w
  = (Raises e, emit (report_head sentiment direction) w)
  ∧ ((∃ s, confidence = PyStr s) ∧ e = ValueError
     ∨ (∃ n, confidence = PyInt n ∧ float_of_int n = Raises OverflowError)
       ∧ e = OverflowError
     ∨ (confidence = PyNone ∨ (∃ l, confidence = PyList l)
        ∨ ∃ m, confidence = PyDict m) ∧ e = TypeError).
Proof.
  intros Hs Hc Hd Hr Hps Hpd He. split.
  - by rewrite (interpret_signal_run _ _ _ _ _ Hs Hc Hd Hr), Hps, Hpd, He.
  - by apply format_2f_raises.
Qed.

Lemma interpret_signal_confidence_error_witness :
  long_signal PyNone !! "sentiment" = Some (PyStr "bullish")
  ∧ long_signal PyNone !! "confidence" = Some PyNone
  ∧ long_signal PyNone !! "direction" = Some (PyStr "long")
  ∧ long_signal PyNone !! "reason" = Some (PyStr "x")
  ∧ printable (PyStr "bullish") = true
  ∧ printable (PyStr "long") = true
  ∧ format_2f PyNone = Raises TypeError
  ∧ interpret_signal (PyDict (long_signal PyNone)) empty_world
    = (Raises TypeError,
       emit (report_head (PyStr "bullish") (PyStr "long")) empty_world)
  ∧ ((∃ s, PyNone = PyStr s) ∧ TypeError = ValueError
     ∨ (∃ n, PyNone = PyInt n ∧ float_of_int n = Raises OverflowError)
       ∧ TypeError = OverflowError
     ∨ (PyNone = PyNone ∨ (∃ l, PyNone = PyList l)
        ∨ ∃ m, PyNone = PyDict m) ∧ TypeError = TypeError).
Proof.
  do 7 (split; [reflexivity |]).
  apply (interpret_signal_confidence_error (long_signal PyNone)
           (PyStr "bullish") PyNone (PyStr "long") (PyStr "x") TypeError);
    reflexivity.
Defined.

(** X3: the threshold of line 88 on a confidence that is no float.  An
    [int] is below [0.6] exactly when it is at most zero, [True] is not
    below and [False] is, so a confidence [1] or [true] passes the
    threshold. *)
Theorem integer_confidence_threshold (n : Z) (b : bool) :
  lt_float (PyInt n) float_0_6 = Returns (bool_decide (n ≤ 0))
  ∧ lt_float (PyBool b) float_0_6 = Returns (negb b).
Proof.
  split; [| by destruct b].
  unfold lt_float, int_lt_float, float_0_6. simpl. f_equal.
  change (2 ^ 53) with 9007199254740992.
  case_bool_decide; [apply Z.ltb_lt | apply Z.ltb_ge]; lia.
Qed.

(** The interpreter leaves the files alone and adds to the console. *)
Lemma interpret_signal_emits signal w :
  ∃ lines, snd (interpret_signal signal w) = emit lines w.
Proof.
  destruct signal as [| | | | | | d];
    try (exists []; by rewrite emit_nil).
  destruct (first_missing d) as [k |] eqn:Hk.
  { destruct (first_missing_run d k w Hk) as [_ ->].
    exists []. by rewrite emit_nil. }
  apply first_missing_none, required_keys_present in Hk
    as ([s Hs] & [c Hc] & [dir Hd] & [r Hr]).
  rewrite (interpret_signal_run _ _ _ _ _ Hs Hc Hd Hr).
  destruct (negb (printable s)); [eauto |].
  destruct (negb (printable dir)); [eauto |].
  destruct (format_2f c); [| eauto].
  destruct (negb (printable r)); [eauto |].
  destruct (lt_float c float_0_6); eauto.
Qed.

(** X4: whatever the signal is and however the call ends, the interpreter
    changes no file and only adds lines at the end of the console. *)
Theorem interpret_signal_frame signal w :
  files (snd (interpret_signal signal w)) = files w
  ∧ ∃ lines, stdout (snd (interpret_signal signal w)) = stdout w ++ lines.
Proof.
  destruct (interpret_signal_emits signal w) as [lines ->].
  split; [reflexivity | by exists lines].
Qed.

(** ** The validator and what follows it *)

(** X5: the validator returns [None] in two cases only, each with its
    diagnostic of two lines: the text is no JSON and the second line is the
    text, or the text decodes to a record without the four keys and the
    second line is that record.  A valid signal prints nothing. *)
Theorem validator_none_diagnostic
    (json_loads : string -> outcome pyvalue) raw w w' :
  (parse_and_validate json_loads raw w = (Returns None, w')
   ↔ json_loads raw = Raises JSONDecodeError
     ∧ w' = emit (invalid_json_diag raw) w
     ∨ ∃ d, json_loads raw = Returns (PyDict d)
         ∧ required_keys ⊈ dom d
         ∧ w' = emit (missing_keys_diag (PyDict d)) w)
  ∧ (∀ v, parse_and_validate json_loads raw w = (Returns (Some v), w') →
       w' = w).
Proof.
  split; [split |].
  - destruct (json_loads raw) as [data | e] eqn:H.
    + destruct (is_dict data) eqn:Hd.
      * destruct data as [| | | | | | d]; try discriminate.
        rewrite (validate_record _ _ _ _ H).
        case_bool_decide as Hk; intros [= <-]. right. by exists d.
      * by rewrite (validate_non_record _ _ _ _ H Hd).
    + destruct (decide (e = JSONDecodeError)) as [-> | He].
      * rewrite (validate_malformed _ _ _ H). intros [= <-]. by left.
      * by rewrite (validate_other_exception _ _ _ _ H He).
  - intros [[H ->] | (d & H & Hk & ->)].
    + by apply validate_malformed.
    + rewrite (validate_record _ _ _ _ H). by rewrite bool_decide_false.
  - by intros v (d & _ & _ & _ & ->)%validate_some.
Qed.

(** The interpreter on a record with the four keys raises from a print of
    a field that cannot be encoded, or from the format of the confidence. *)
Lemma interpret_signal_raises (d : pydict) e w w' :
  required_keys ⊆ dom d →
  interpret_signal (PyDict d) w = (Raises e, w') →
  e = UnicodeEncodeError ∧ fields_printable d = false
  ∨ ∃ c, d !! "confidence" = Some c ∧ format_2f c = Raises e.
Proof.
  intros ([s Hs] & [c Hc] & [dir Hd] & [r Hr])%required_keys_present.
  rewrite (interpret_signal_run _ _ _ _ _ Hs Hc Hd Hr).
  unfold fields_printable. rewrite Hs, Hd, Hr. simpl.
  destruct (printable s); simpl; [| intros [= <- <-]; by left].
  destruct (printable dir); simpl; [| intros [= <- <-]; by left].
  destruct (format_2f c) as [shown | e'] eqn:Hf.
  - destruct (printable r); simpl; [| intros [= <- <-]; by left].
    destruct (format_2f_lt_float _ _ Hf) as [low ->]. discriminate.
  - intros [= <- <-]. right. by exists c.
Qed.

(** X6: a signal that the validator returns can be handed on as it is.
    It is a record, so the recorder finds its method [get]: on a path that
    can be opened the recorder writes the record when it can be encoded,
    with a cell from a value that is present for each of the four fields,
    and raises [UnicodeEncodeError] and nothing else when it cannot.  The
    interpreter finds its four keys: it raises from the format of the
    confidence ([ValueError], [TypeError], [OverflowError]) or from a print
    ([UnicodeEncodeError]), never [KeyError]. *)
Theorem validated_signal_is_usable
    (json_loads : string -> outcome pyvalue) raw v w w1
    now headline filename w2 :
  parse_and_validate json_loads raw w = (Returns (Some v), w1) →
  can_open (files w2 !! filename) →
  ∃ d,
    v = PyDict d
    ∧ (record_encodable (data_record now headline d) = true →
       ∃ start content,
         log_signal now headline v filename w2
         = (Returns tt,
            with_file filename start
              (content ++ [data_record now headline d]) w2))
    ∧ (∀ e w3, log_signal now headline v filename w2 = (Raises e, w3) →
       e = UnicodeEncodeError
       ∧ record_encodable (data_record now headline d) = false)
    ∧ (∀ name, name ∈ required_keys →
       ∃ x, d !! name = Some x
            ∧ column name (data_record now headline d) = Some (csv_field x))
    ∧ (∀ e w3, interpret_signal v w2 = (Raises e, w3) →
       e = ValueError ∨ e = TypeError ∨ e = OverflowError
       ∨ e = UnicodeEncodeError).
Proof.
  intros (d & -> & _ & Hk & _)%validate_some Hf.
  exists d. split; [done |]. split; [| split; [| split]].
  - intros Henc. by apply log_signal_appends.
  - intros e w3. rewrite log_signal_run.
    destruct (files w2 !! filename) as [[start content | |] |]; try done;
      destruct (record_encodable (data_record now headline d));
      try discriminate; by intros [= <- _].
  - intros name Hname.
    assert (is_Some (d !! name)) as [x Hx] by (apply elem_of_dom; auto).
    exists x. split; [done |].
    destruct (data_record_columns now headline d) as (_ & _ & Hcol).
    by rewrite (Hcol name Hname), Hx.
  - intros e w3 [[-> _] | (c & _ & Hc)]%interpret_signal_raises; [auto | | done].
    destruct (format_2f_raises _ _ Hc) as [[_ ->] | [[_ ->] | [_ ->]]]; auto.
Qed.

Lemma validated_signal_is_usable_witness :
  parse_and_validate Json.loads (signal_text "xyz" "2.5" "up" "x") empty_world
  = (Returns (Some (PyDict loose_signal)), empty_world)
  ∧ can_open (files empty_world !! default_filename)
  ∧ ∃ d,
    PyDict loose_signal = PyDict d
    ∧ (record_encodable (data_record "2025-01-03T08:00:00" "Gilts rally" d)
       = true →
       ∃ start content,
         log_signal "2025-01-03T08:00:00" "Gilts rally" (PyDict loose_signal)
           default_filename empty_world
         = (Returns tt,
            with_file default_filename start
              (content ++ [data_record "2025-01-03T08:00:00" "Gilts rally" d])
              empty_world))
    ∧ (∀ e w3,
       log_signal "2025-01-03T08:00:00" "Gilts rally" (PyDict loose_signal)
         default_filename empty_world = (Raises e, w3) →
       e = UnicodeEncodeError
       ∧ record_encodable (data_record "2025-01-03T08:00:00" "Gilts rally" d)
         = false)
    ∧ (∀ name, name ∈ required_keys →
       ∃ x, d !! name = Some x
            ∧ column name (data_record "2025-01-03T08:00:00" "Gilts rally" d)
              = Some (csv_field x))
    ∧ (∀ e w3,
       interpret_signal (PyDict loose_signal) empty_world = (Raises e, w3) →
       e = ValueError ∨ e = TypeError ∨ e = OverflowError
       ∨ e = UnicodeEncodeError).
Proof.
  assert (H1 :
    parse_and_validate Json.loads (signal_text "xyz" "2.5" "up" "x")
      empty_world
    = (Returns (Some (PyDict loose_signal)), empty_world)).
  { by rewrite (validate_record Json.loads _ loose_signal). }
  assert (H2 : can_open (files empty_world !! default_filename)).
  { vm_compute. exact I. }
  split; [exact H1 |]. split; [exact H2 |].
  exact (validated_signal_is_usable Json.loads _ _ _ _
           "2025-01-03T08:00:00" "Gilts rally" default_filename empty_world
           H1 H2).
Defined.

(** ** The recorder on every input *)

(** The world after a call: the one before it, or that one with the log
    created or longer by the header, the record, or both. *)
Lemma log_signal_cases now headline signal filename w :
  snd (log_signal now headline signal filename w) = w
  ∨ ∃ d added,
      signal = PyDict d
      ∧ (added = [header] ∨ added = [data_record now headline d]
         ∨ added = [header; data_record now headline d])
      ∧ snd (log_signal now headline signal filename w)
        = match files w !! filename with
          | Some (RegularFile start content) =>
              with_file filename start (content ++ added) w
          | _ => with_file filename EmptyString added w
          end.
Proof.
  destruct (is_dict signal) eqn:Hd.
  - destruct signal as [| | | | | | d]; try discriminate.
    rewrite log_signal_run.
    destruct (files w !! filename) as [[start content | |] |];
      destruct (record_encodable (data_record now headline d));
      simpl; auto; right; exists d; eauto 6.
  - left. by rewrite log_signal_not_dict.
Qed.

(** X7: the recorder prints nothing and touches no path but its own,
    whatever the signal is and however the call ends; and a signal that is
    no dict raises [AttributeError] on line 136, before the file is opened
    or created. *)
Theorem log_signal_frame now headline signal filename other w :
  other ≠ filename →
  stdout (snd (log_signal now headline signal filename w)) = stdout w
  ∧ files (snd (log_signal now headline signal filename w)) !! other
    = files w !! other
  ∧ (is_dict signal = false →
     log_signal now headline signal filename w = (Raises AttributeError, w)).
Proof.
  intros Hne. split; [| split].
  - destruct (log_signal_cases now headline signal filename w)
      as [-> | (d & added & _ & _ & ->)]; [done |].
    by destruct (files w !! filename) as [[start content | |] |].
  - destruct (log_signal_cases now headline signal filename w)
      as [-> | (d & added & _ & _ & ->)]; [done |].
    destruct (files w !! filename) as [[start content | |] |]; simpl;
      by rewrite lookup_insert_ne.
  - apply log_signal_not_dict.
Qed.

Lemma log_signal_frame_witness :
  "other.csv" ≠ default_filename
  ∧ stdout (snd (log_signal "2025-01-03T08:00:00" "Gilts rally" (PyList [])
                   default_filename empty_world))
    = stdout empty_world
  ∧ files (snd (log_signal "2025-01-03T08:00:00" "Gilts rally" (PyList [])
                  default_filename empty_world)) !! "other.csv"
    = files empty_world !! "other.csv"
  ∧ (is_dict (PyList []) = false →
     log_signal "2025-01-03T08:00:00" "Gilts rally" (PyList [])
       default_filename empty_world
     = (Raises AttributeError, empty_world)).
Proof.
  split; [discriminate |].
  apply (log_signal_frame "2025-01-03T08:00:00" "Gilts rally" (PyList [])
           default_filename "other.csv" empty_world).
  discriminate.
Defined.

(** X8: every record that the recorder writes has six cells, the header
    as well as the record of a signal.  If the records written to the log
    so far have six cells each, or the log does not exist, then so have the
    records written after a call, whatever the signal is and however the
    call ends. *)
Theorem log_signal_keeps_six_columns
    now headline signal filename w start' content' :
  (∀ start content, files w !! filename = Some (RegularFile start content) →
     Forall (λ r, length r = length fieldnames) content) →
  files (snd (log_signal now headline signal filename w)) !! filename
  = Some (RegularFile start' content') →
  Forall (λ r, length r = length fieldnames) content'.
Proof.
  intros Hbefore.
  destruct (log_signal_cases now headline signal filename w)
    as [-> | (d & added & _ & Hadded & ->)]; [apply Hbefore |].
  assert (Hsix : Forall (λ r, length r = length fieldnames) added).
  { destruct Hadded as [-> | [-> | ->]]; by repeat constructor. }
  destruct (files w !! filename) as [[start content | |] |] eqn:Hf;
    rewrite files_with_file; intros [= <- <-]; try done.
  apply Forall_app. split; [by eapply Hbefore | done].
Qed.

Lemma log_signal_keeps_six_columns_witness :
  (∀ start content, files empty_world !! default_filename
                    = Some (RegularFile start content) →
     Forall (λ r, length r = length fieldnames) content)
  ∧ files (snd (log_signal "2025-01-03T08:00:00" "Gilts rally"
                  (PyDict loose_signal) default_filename empty_world))
      !! default_filename
    = Some (RegularFile EmptyString
        [header; data_record "2025-01-03T08:00:00" "Gilts rally" loose_signal])
  ∧ Forall (λ r, length r = length fieldnames)
      [header; data_record "2025-01-03T08:00:00" "Gilts rally" loose_signal].
Proof.
  assert (H1 : ∀ start content,
    files empty_world !! default_filename = Some (RegularFile start content) →
    Forall (λ r, length r = length fieldnames) content).
  { intros start content H. vm_compute in H. discriminate. }
  assert (H2 :
    files (snd (log_signal "2025-01-03T08:00:00" "Gilts rally"
                  (PyDict loose_signal) default_filename empty_world))
      !! default_filename
    = Some (RegularFile EmptyString
        [header; data_record "2025-01-03T08:00:00" "Gilts rally" loose_signal])).
  { reflexivity. }
  split; [exact H1 |]. split; [exact H2 |].
  exact (log_signal_keeps_six_columns _ _ _ _ _ _ _ H1 H2).
Defined.

(** A field that is missing, [null] or the empty string gives the same
    record. *)
Lemma data_record_missing now headline (d : pydict) name :
  name ∈ required_keys →
  data_record now headline (<[name := PyNone]> d)
  = data_record now headline (delete name d)
  ∧ data_record now headline (<[name := PyStr EmptyString]> d)
    = data_record now headline (delete name d)
  ∧ column name (data_record now headline (delete name d))
    = Some (CellText EmptyString).
Proof.
  unfold required_keys. rewrite !elem_of_union, !elem_of_singleton.
  intros [[[-> | ->] | ->] | ->]; unfold data_record, column;
    rewrite ?lookup_delete_eq, ?lookup_insert_eq;
    rewrite ?lookup_delete_ne, ?lookup_insert_ne by done; done.
Qed.

(** X9: the recorder cannot tell a field that is missing from one that is
    [null] or the empty string: on every file system a call with any of
    the three signals ends in the same way and leaves the same files, and
    the cell of the field in the record is empty. *)
Theorem missing_null_and_empty_coincide
    now headline (d : pydict) name filename w :
  name ∈ required_keys →
  log_signal now headline (PyDict (<[name := PyNone]> d)) filename w
  = log_signal now headline (PyDict (delete name d)) filename w
  ∧ log_signal now headline (PyDict (<[name := PyStr EmptyString]> d))
      filename w
    = log_signal now headline (PyDict (delete name d)) filename w
  ∧ column name (data_record now headline (delete name d))
    = Some (CellText EmptyString).
Proof.
  intros Hname.
  destruct (data_record_missing now headline d name Hname) as (H1 & H2 & H3).
  rewrite !log_signal_run, H1, H2. done.
Qed.

Lemma missing_null_and_empty_coincide_witness :
  "reason" ∈ required_keys
  ∧ log_signal "2025-01-03T08:00:00" "Gilts rally"
      (PyDict (<["reason" := PyNone]> loose_signal)) default_filename
      empty_world
    = log_signal "2025-01-03T08:00:00" "Gilts rally"
        (PyDict (delete "reason" loose_signal)) default_filename empty_world
  ∧ log_signal "2025-01-03T08:00:00" "Gilts rally"
      (PyDict (<["reason" := PyStr EmptyString]> loose_signal))
      default_filename empty_world
    = log_signal "2025-01-03T08:00:00" "Gilts rally"
        (PyDict (delete "reason" loose_signal)) default_filename empty_world
  ∧ column "reason"
      (data_record "2025-01-03T08:00:00" "Gilts rally"
         (delete "reason" loose_signal))
    = Some (CellText EmptyString).
Proof.
  assert (H : "reason" ∈ required_keys).
  { apply (bool_decide_unpack _). vm_compute. exact I. }
  split; [exact H |].
  exact (missing_null_and_empty_coincide _ _ loose_signal "reason"
           default_filename empty_world H).
Defined.

(** ** The prompt read back *)

Lemma length_append (a b : string) :
  String.length (a +:+ b) = (String.length a + String.length b)%nat.
Proof.
  induction a as [| x a IH]; [done |].
  rewrite append_cons. simpl. by rewrite IH.
Qed.

Lemma append_inj_r (a b s : string) : a +:+ s = b +:+ s → a = b.
Proof.
  revert b. induction a as [| x a IH]; intros [| y b] H.
  - done.
  - apply (f_equal String.length) in H.
    rewrite append_nil, append_cons in H. simpl in H.
    rewrite length_append in H. lia.
  - apply (f_equal String.length) in H.
    rewrite append_nil, append_cons in H. simpl in H.
    rewrite length_append in H. lia.
  - rewrite !append_cons in H. injection H as -> H. f_equal. by apply IH.
Qed.

(** X10: the prompt carries the headline without loss: two headlines with
    the same prompt are the same headline. *)
Theorem build_prompt_inj (h1 h2 : string) :
  build_prompt h1 = build_prompt h2 ↔ h1 = h2.
Proof.
  split; [| by intros ->].
  unfold build_prompt, quoted. intros H.
  do 2 apply (inj (String.app _)) in H.
  rewrite !append_assoc in H.
  apply (inj (String.app _)) in H.
  by apply append_inj_r in H.
Qed.

(** ** The interactive loop *)

Lemma emit_app ls1 ls2 w : emit ls2 (emit ls1 w) = emit (ls1 ++ ls2) w.
Proof. unfold emit. simpl. by rewrite app_assoc. Qed.

Lemma log_after_nil before : log_after before [] = before.
Proof.
  destruct before as [[start content | |] |]; simpl; try done.
  by rewrite app_nil_r.
Qed.

Lemma log_after_app before rs1 rs2 :
  log_after (log_after before rs1) rs2 = log_after before (rs1 ++ rs2).
Proof.
  destruct before as [[start content | |] |]; simpl.
  - by rewrite app_assoc.
  - by destruct rs2.
  - by destruct rs2.
  - destruct rs1; simpl; [done | by destruct rs2].
Qed.

Lemma log_after_can_open before rs :
  can_open before → can_open (log_after before rs).
Proof. by destruct before as [[start content | |] |], rs. Qed.

(** The log after a call that returns. *)
Lemma log_signal_log_after now headline (d : pydict) filename w :
  can_open (files w !! filename) →
  record_encodable (data_record now headline d) = true →
  ∃ w',
    log_signal now headline (PyDict d) filename w = (Returns tt, w')
    ∧ files w' !! filename
      = log_after (files w !! filename) [data_record now headline d]
    ∧ (∀ other, other ≠ filename → files w' !! other = files w !! other)
    ∧ stdout w' = stdout w.
Proof.
  intros Hopen Henc. rewrite log_signal_run, Henc.
  destruct (files w !! filename) as [[start content | |] |]; try done;
    (eexists; split; [reflexivity |]; split; [apply files_with_file |];
     split; [| done]; intros other Hne; simpl; by rewrite lookup_insert_ne).
Qed.

Section MainFacts.

Variable json_loads : string -> outcome pyvalue.
Variables strip lower : string -> string.

(** The call of line 117 prints a diagnostic at most. *)
Lemma get_trading_signal_emits (r : outcome string) headline :
  ∃ res diag, ∀ w,
    get_trading_signal_from_headline json_loads (fun _ => r) headline w
    = (res, emit diag w).
Proof.
  destruct r as [raw | e].
  - destruct (validate_shape json_loads raw) as (res & diag & H).
    exists res, diag. intros w.
    by rewrite get_trading_signal_from_headline_run.
  - exists (Raises e), []. intros w.
    by rewrite get_trading_signal_from_headline_run, emit_nil.
Qed.

(** The call of line 117 on a turn with a record. *)
Lemma get_trading_signal_record t r w :
  turn_record json_loads strip t = Some r →
  ∃ raw d,
    is_blank strip t = false
    ∧ reply t = Returns raw
    ∧ json_loads raw = Returns (PyDict d)
    ∧ required_keys ⊆ dom d
    ∧ r = data_record (clock t) (strip (typed t)) d
    ∧ get_trading_signal_from_headline json_loads (fun _ => reply t)
        (strip (typed t)) w
      = (Returns (Some (PyDict d)), w).
Proof.
  unfold turn_record.
  destruct (is_blank strip t); [discriminate |].
  destruct (reply t) as [raw | e] eqn:Hr; [| discriminate].
  destruct (json_loads raw) as [[| | | | | | d] | e] eqn:Hj; try discriminate.
  case_bool_decide as Hk; [| discriminate]. intros [= <-].
  exists raw, d. repeat split; try done.
  rewrite get_trading_signal_from_headline_run.
  by rewrite (validate_record _ _ _ _ Hj), bool_decide_true.
Qed.

(** A turn that survives and leaves no record: the loop goes on, with a
    longer console, whether [log_signal] is bound or not. *)
Lemma main_loop_skip defined t :
  survives json_loads strip lower t →
  turn_record json_loads strip t = None →
  ∃ lines, ∀ rest w,
    main_loop json_loads strip lower defined (t :: rest) w
    = main_loop json_loads strip lower defined rest (emit lines w).
Proof.
  intros [Hq Hs] Hrec. unfold is_quit in Hq. unfold turn_record in Hrec.
  destruct (is_blank strip t) eqn:Hb.
  { exists [input_prompt; empty_headline_msg]. intros rest w. simpl.
    unfold is_blank in Hb. by rewrite Hq, Hb, emit_app. }
  destruct Hs as [[=] | (raw & Hr & Hs)]. rewrite Hr in Hrec.
  assert (∃ diag, ∀ w,
    get_trading_signal_from_headline json_loads (fun _ => reply t)
      (strip (typed t)) w = (Returns None, emit diag w)) as [diag Hrun].
  { destruct Hs as [Hj | (d & Hj & Hk)].
    - exists (invalid_json_diag raw). intros w.
      rewrite get_trading_signal_from_headline_run, Hr.
      by apply validate_malformed.
    - rewrite Hj in Hrec. exists (missing_keys_diag (PyDict d)). intros w.
      rewrite get_trading_signal_from_headline_run, Hr.
      rewrite (validate_record _ _ _ _ Hj).
      destruct (bool_decide (required_keys ⊆ dom d)); [discriminate | done]. }
  exists ([input_prompt] ++ diag ++ [no_signal_msg]). intros rest w. simpl.
  unfold is_blank in Hb. rewrite Hq, Hb, Hrun.
  by rewrite !emit_app.
Qed.

(** X11: run as a script, the program never writes: whatever is typed and
    whatever the backend replies, the files at the end of [main] are the
    files at its start. *)
Theorem script_never_logs turns w :
  files (snd (run_script json_loads strip lower turns w)) = files w.
Proof.
  unfold run_script, main.
  change (files w) with (files (emit banner w)).
  generalize (emit banner w). clear w.
  induction turns as [| t rest IH]; intros w; simpl; [done |].
  destruct (bool_decide (lower (strip (typed t)) ∈ quit_tokens)); [done |].
  destruct (bool_decide (strip (typed t) = EmptyString)).
  { by rewrite IH. }
  destruct (get_trading_signal_emits (reply t) (strip (typed t)))
    as (res & diag & ->).
  destruct res as [[v |] | e]; [done | | done].
  by rewrite IH.
Qed.

(** X12: run as a script, the program stops at the first signal that the
    validator accepts: after turns that leave no record, such a turn ends
    [main] with [NameError] for [log_signal], whatever follows. *)
Theorem script_stops_at_first_signal skipped t rest w :
  Forall (λ u, survives json_loads strip lower u
               ∧ turn_record json_loads strip u = None) skipped →
  is_quit strip lower t = false →
  is_Some (turn_record json_loads strip t) →
  fst (run_script json_loads strip lower (skipped ++ t :: rest) w)
  = NameError "log_signal".
Proof.
  intros Hskip Hq [r Hr]. unfold run_script, main.
  generalize (emit banner w). clear w.
  induction Hskip as [| u skipped [Hu Hnone] _ IH]; intros w.
  - destruct (get_trading_signal_record t r (emit [input_prompt] w) Hr)
      as (raw & d & Hb & _ & _ & _ & _ & Hrun).
    simpl. unfold is_quit in Hq. unfold is_blank in Hb.
    by rewrite Hq, Hb, Hrun.
  - destruct (main_loop_skip false u Hu Hnone) as [lines Hstep].
    change ((u :: skipped) ++ t :: rest) with (u :: (skipped ++ t :: rest)).
    by rewrite Hstep.
Qed.

(** X13: [main] returns only through a quit token: when it ends by
    [break], one of the lines read is [quit], [exit] or [q] once stripped
    and lowered. *)
Theorem main_returns_only_on_quit defined turns w :
  fst (main json_loads strip lower defined turns w) = Quit →
  ∃ t, t ∈ turns ∧ is_quit strip lower t = true.
Proof.
  unfold main. generalize (emit banner w). clear w.
  induction turns as [| t rest IH]; intros w; simpl; [discriminate |].
  destruct (bool_decide (lower (strip (typed t)) ∈ quit_tokens)) eqn:Hq.
  { intros _. exists t. split; [by left | done]. }
  assert (Hrest : ∀ w', fst (main_loop json_loads strip lower defined rest w')
                        = Quit →
                        ∃ u, u ∈ t :: rest ∧ is_quit strip lower u = true).
  { intros w' (u & Hu & Hqu)%IH. exists u. split; [by right | done]. }
  destruct (bool_decide (strip (typed t) = EmptyString)); [by apply Hrest |].
  destruct (get_trading_signal_from_headline _ _ _ _) as [[[v |] | e] w1];
    [| by apply Hrest | discriminate].
  destruct defined; [| discriminate].
  destruct (log_signal _ _ _ _ _) as [[[] | e] w2]; [| discriminate].
  destruct (interpret_signal _ _) as [[[] | e] w3]; [| discriminate].
  by apply Hrest.
Qed.

(** X14: what is typed after a quit token is never read: the session is
    that of the lines up to the token. *)
Theorem input_after_quit_unread defined before q rest w :
  is_quit strip lower q = true →
  main json_loads strip lower defined (before ++ q :: rest) w
  = main json_loads strip lower defined (before ++ [q]) w.
Proof.
  intros Hq. unfold main. generalize (emit banner w). clear w.
  induction before as [| t before IH]; intros w; simpl.
  { unfold is_quit in Hq. by rewrite Hq. }
  destruct (bool_decide (lower (strip (typed t)) ∈ quit_tokens)); [done |].
  destruct (bool_decide (strip (typed t) = EmptyString)); [by apply IH |].
  destruct (get_trading_signal_from_headline _ _ _ _) as [[[v |] | e] w1];
    [| by apply IH | done].
  destruct defined; [| done].
  destruct (log_signal _ _ _ _ _) as [[[] | e] w2]; [| done].
  destruct (interpret_signal _ _) as [[[] | e] w3]; [| done].
  by apply IH.
Qed.

End MainFacts.

(** ** The loop after an import *)

Section MainImportedFacts.

Variable json_loads : string -> outcome pyvalue.
Variables strip lower : string -> string.

(** One turn that survives and whose writes can be encoded, with
    [log_signal] bound: the loop goes on, and the log has the record of the
    turn, if it has one, at its end. *)
Lemma main_loop_step t w :
  survives json_loads strip lower t →
  encodable_turn json_loads strip t →
  can_open (files w !! default_filename) →
  ∃ w',
    (∀ rest, main_loop json_loads strip lower true (t :: rest) w
             = main_loop json_loads strip lower true rest w')
    ∧ files w' !! default_filename
      = log_after (files w !! default_filename)
          (option_list (turn_record json_loads strip t))
    ∧ (∀ other, other ≠ default_filename →
       files w' !! other = files w !! other)
    ∧ ∃ lines, stdout w' = stdout w ++ lines.
Proof.
  intros Hs Henc Hf.
  destruct (turn_record json_loads strip t) as [r |] eqn:Hrec.
  - destruct (get_trading_signal_record json_loads strip t r
                (emit [input_prompt] w) Hrec)
      as (raw & d & Hb & Hr & Hj & Hk & -> & Hrun).
    destruct (Henc raw d Hr Hj Hk) as [Hrecord Hprint].
    destruct Hs as [Hq [Hblank | (raw' & Hr' & Hs)]]; [congruence |].
    rewrite Hr in Hr'. injection Hr' as <-.
    destruct Hs as [Hj' | (d' & Hj' & Hs)]; [congruence |].
    rewrite Hj in Hj'. injection Hj' as <-.
    destruct Hs as [Hn | (_ & c & shown & Hc & Hshown)]; [done |].
    apply required_keys_present in Hk as ([s Hs] & _ & [dir Hd] & [rs Hrs]).
    destruct (format_2f_lt_float _ _ Hshown) as [low Hlow].
    destruct (log_signal_log_after (clock t) (strip (typed t)) d
                default_filename (emit [input_prompt] w) Hf Hrecord)
      as (w1 & Hlog & Hfile & Hframe & Hout).
    eexists. split; [| split; [| split]].
    + intros rest. simpl. unfold is_quit in Hq. unfold is_blank in Hb.
      rewrite Hq, Hb, Hrun, Hlog.
      rewrite (interpret_signal_printable _ _ _ _ _ Hs Hc Hd Hrs _ Hprint),
        Hshown, Hlow.
      reflexivity.
    + exact Hfile.
    + exact Hframe.
    + simpl. rewrite Hout. simpl. rewrite <- app_assoc. eauto.
  - destruct (main_loop_skip json_loads strip lower true t Hs Hrec)
      as [lines Hstep].
    exists (emit lines w). split; [done |]. split; [| split].
    + simpl. by rewrite log_after_nil.
    + done.
    + by exists lines.
Qed.

(** The turns of a session that all survive. *)
Lemma main_loop_steps turns w :
  Forall (λ t, survives json_loads strip lower t
               ∧ encodable_turn json_loads strip t) turns →
  can_open (files w !! default_filename) →
  ∃ w',
    (∀ rest, main_loop json_loads strip lower true (turns ++ rest) w
             = main_loop json_loads strip lower true rest w')
    ∧ files w' !! default_filename
      = log_after (files w !! default_filename)
          (omap (turn_record json_loads strip) turns)
    ∧ (∀ other, other ≠ default_filename →
       files w' !! other = files w !! other)
    ∧ ∃ lines, stdout w' = stdout w ++ lines.
Proof.
  intros Hturns. revert w.
  induction Hturns as [| t turns [Ht Henc] _ IH]; intros w Hf.
  - exists w. split; [done |]. split; [by rewrite log_after_nil |].
    split; [done |]. exists []. by rewrite app_nil_r.
  - destruct (main_loop_step t w Ht Henc Hf)
      as (w1 & Hstep & Hlog1 & Hfr1 & l1 & Ho1).
    destruct (IH w1) as (w2 & Hsteps & Hlog2 & Hfr2 & l2 & Ho2).
    { rewrite Hlog1. by apply log_after_can_open. }
    exists w2. split; [| split; [| split]].
    + intros rest.
      change ((t :: turns) ++ rest) with (t :: (turns ++ rest)).
      by rewrite Hstep, Hsteps.
    + rewrite Hlog2, Hlog1, log_after_app. f_equal.
      simpl. by destruct (turn_record json_loads strip t).
    + intros other Hne. by rewrite Hfr2, Hfr1.
    + exists (l1 ++ l2). by rewrite Ho2, Ho1, app_assoc.
Qed.

(** X15: the log of a session.  After an import, when the log can be
    opened and each line before the quit token is empty or a headline whose
    reply is no JSON, a record without the four keys, or a record with them,
    a confidence that [.2f] formats, and a time, headline and fields that
    can be encoded, [main] returns at the token; the log then holds what it
    held, or the header if it did not exist and a record was written,
    followed by one record per accepted signal in the order of the
    headlines; no other file is touched; and without the token the session
    ends with the [EOFError] of [input]. *)
Theorem session_log turns q w :
  Forall (λ t, survives json_loads strip lower t
               ∧ encodable_turn json_loads strip t) turns →
  is_quit strip lower q = true →
  can_open (files w !! default_filename) →
  ∃ w',
    main_imported json_loads strip lower (turns ++ [q]) w = (Quit, w')
    ∧ files w' !! default_filename
      = log_after (files w !! default_filename)
          (omap (turn_record json_loads strip) turns)
    ∧ (∀ other, other ≠ default_filename →
       files w' !! other = files w !! other)
    ∧ fst (main_imported json_loads strip lower turns w) = EOFError.
Proof.
  intros Hturns Hq Hf. unfold main_imported, main.
  destruct (main_loop_steps turns (emit banner w) Hturns Hf)
    as (w1 & Hsteps & Hlog & Hfr & _).
  exists (emit [input_prompt; goodbye] w1). split; [| split; [| split]].
  - rewrite Hsteps. simpl. unfold is_quit in Hq. by rewrite Hq, emit_app.
  - done.
  - done.
  - rewrite <- (app_nil_r turns) at 1. by rewrite Hsteps.
Qed.

(** X16: the recorder runs before the interpreter (lines 120-121), so a
    signal whose confidence cannot be formatted is in the log when the
    interpreter raises and ends the session, provided the log can be opened
    and the record and the printed fields can be encoded. *)
Theorem signal_logged_before_interpreter_fails
    t rest raw (d : pydict) c e w :
  is_quit strip lower t = false →
  is_blank strip t = false →
  reply t = Returns raw →
  json_loads raw = Returns (PyDict d) →
  required_keys ⊆ dom d →
  d !! "confidence" = Some c →
  format_2f c = Raises e →
  can_open (files w !! default_filename) →
  record_encodable (data_record (clock t) (strip (typed t)) d) = true →
  fields_printable d = true →
  ∃ w',
    main_imported json_loads strip lower (t :: rest) w = (Escaped e, w')
    ∧ files w' !! default_filename
      = log_after (files w !! default_filename)
          [data_record (clock t) (strip (typed t)) d].
Proof.
  intros Hq Hb Hr Hj Hk Hc He Hf Henc Hprint. unfold main_imported, main.
  pose proof Hk as ([s Hs] & _ & [dir Hd] & [rs Hrs])%required_keys_present.
  unfold is_quit in Hq. unfold is_blank in Hb. simpl. rewrite Hq, Hb.
  rewrite get_trading_signal_from_headline_run, Hr.
  rewrite (validate_record _ _ _ _ Hj), bool_decide_true by done.
  destruct (log_signal_log_after (clock t) (strip (typed t)) d
              default_filename (emit [input_prompt] (emit banner w)) Hf Henc)
    as (w1 & Hlog & Hfile & _ & _).
  rewrite Hlog.
  rewrite (interpret_signal_printable _ _ _ _ _ Hs Hc Hd Hrs _ Hprint), He.
  eexists. split; [reflexivity |]. exact Hfile.
Qed.

(** X17: what can end the loop with an exception.  After an import, an
    exception that leaves [main] comes from a headline at which the backend
    raised it, the decoder raised it and it is no [JSONDecodeError], the
    reply decoded to something that is no record ([AttributeError]), or the
    record had the four keys and the log could not be opened
    ([IsADirectoryError], [FileNotFoundError]), the record or a printed
    field could not be encoded ([UnicodeEncodeError]), or the format of the
    confidence raised it.  A reply that is no JSON, or a record without the
    four keys, never ends the loop. *)
Theorem main_escape_causes turns e w :
  fst (main_imported json_loads strip lower turns w) = Escaped e →
  ∃ t, t ∈ turns ∧ crash_cause json_loads strip lower t e.
Proof.
  unfold main_imported, main. generalize (emit banner w). clear w.
  induction turns as [| t rest IH]; intros w; simpl; [discriminate |].
  destruct (bool_decide (lower (strip (typed t)) ∈ quit_tokens)) eqn:Hq;
    [discriminate |].
  assert (Hrest : ∀ w',
    fst (main_loop json_loads strip lower true rest w') = Escaped e →
    ∃ u, u ∈ t :: rest ∧ crash_cause json_loads strip lower u e).
  { intros w' (u & Hu & Hcause)%IH. exists u. split; [by right | done]. }
  destruct (bool_decide (strip (typed t) = EmptyString)) eqn:Hb;
    [by apply Hrest |].
  assert (Hhere : crash_cause json_loads strip lower t e →
    ∃ u, u ∈ t :: rest ∧ crash_cause json_loads strip lower u e).
  { intros Hcause. exists t. split; [by left | done]. }
  assert (Hqt : is_quit strip lower t = false) by exact Hq.
  assert (Hbt : is_blank strip t = false) by exact Hb.
  rewrite get_trading_signal_from_headline_run.
  destruct (reply t) as [raw | e'] eqn:Hr.
  2:{ intros [= ->]. apply Hhere. split; [done |]. split; [done |]. by left. }
  assert (Hraw :
    (json_loads raw = Raises e ∧ e ≠ JSONDecodeError
     ∨ (∃ data, json_loads raw = Returns data
          ∧ is_dict data = false ∧ e = AttributeError)
     ∨ ∃ d, json_loads raw = Returns (PyDict d)
         ∧ required_keys ⊆ dom d
         ∧ (e = IsADirectoryError
            ∨ e = FileNotFoundError
            ∨ e = UnicodeEncodeError
              ∧ (record_encodable
                   (data_record (clock t) (strip (typed t)) d) = false
                 ∨ fields_printable d = false)
            ∨ ∃ c, d !! "confidence" = Some c ∧ format_2f c = Raises e)) →
    ∃ u, u ∈ t :: rest ∧ crash_cause json_loads strip lower u e).
  { intros Hcause. apply Hhere. split; [done |]. split; [done |].
    right. by exists raw. }
  destruct (json_loads raw) as [data | e'] eqn:Hj.
  2:{ destruct (decide (e' = JSONDecodeError)) as [-> | Hne].
      - rewrite (validate_malformed _ _ _ Hj). by apply Hrest.
      - rewrite (validate_other_exception _ _ _ _ Hj Hne). intros [= ->].
        apply Hraw. by left. }
  destruct (is_dict data) eqn:Hd.
  2:{ rewrite (validate_non_record _ _ _ _ Hj Hd). intros [= <-].
      apply Hraw. right. left. by exists data. }
  destruct data as [| | | | | | d]; try discriminate.
  rewrite (validate_record _ _ _ _ Hj).
  destruct (bool_decide (required_keys ⊆ dom d)) eqn:Hk;
    [| by apply Hrest].
  apply bool_decide_eq_true in Hk.
  assert (Hinterp : ∀ w1,
    fst (match interpret_signal (PyDict d) w1 with
         | (Raises e0, w3) => (Escaped e0, w3)
         | (Returns _, w3) => main_loop json_loads strip lower true rest w3
         end) = Escaped e →
    ∃ u, u ∈ t :: rest ∧ crash_cause json_loads strip lower u e).
  { intros w1.
    destruct (interpret_signal (PyDict d) w1) as [[[] | e0] w3] eqn:Hrun;
      [by apply Hrest |].
    intros [= ->]. apply Hraw. right. right. exists d.
    split; [done |]. split; [done |].
    destruct (interpret_signal_raises d e w1 w3 Hk Hrun)
      as [[-> Hp] | Hc]; [auto 8 | by do 3 right]. }
  rewrite log_signal_run.
  destruct (record_encodable (data_record (clock t) (strip (typed t)) d))
    eqn:Henc; simpl;
    destruct (files w !! default_filename) as [[start content | |] |] eqn:Hw;
    try (by apply Hinterp);
    intros [= <-]; apply Hraw; right; right; exists d; auto 8.
Qed.

End MainImportedFacts.

(** ** The loop on a session *)

Lemma skipped_turns_survive :
  Forall (λ u, survives Json.loads strip_ascii lower_ascii u
               ∧ turn_record Json.loads strip_ascii u = None) skipped_turns.
Proof.
  apply Forall_cons. split; [| apply Forall_cons; split; [| by apply Forall_nil]].
  - split; [| reflexivity]. split; [reflexivity |]. by left.
  - split; [| reflexivity]. split; [reflexivity |].
    right. exists "no idea". split; [reflexivity |]. by left.
Qed.

Lemma sample_turns_survive :
  Forall (survives Json.loads strip_ascii lower_ascii) sample_turns.
Proof.
  apply Forall_app. split.
  - eapply Forall_impl; [apply skipped_turns_survive |]. by intros u [Hu _].
  - apply Forall_cons. split; [| by apply Forall_nil].
    split; [reflexivity |]. right.
    exists (signal_text "bullish" "0.9" "long" "x"). split; [reflexivity |].
    right. exists (long_signal (PyFloat float_0_9)). split; [reflexivity |].
    right. split; [apply (bool_decide_unpack _); vm_compute; exact I |].
    exists (PyFloat float_0_9), (Fixed2 float_0_9). by split.
Qed.

Lemma script_stops_at_first_signal_witness :
  Forall (λ u, survives Json.loads strip_ascii lower_ascii u
               ∧ turn_record Json.loads strip_ascii u = None) skipped_turns
  ∧ is_quit strip_ascii lower_ascii signal_turn = false
  ∧ is_Some (turn_record Json.loads strip_ascii signal_turn)
  ∧ fst (run_script Json.loads strip_ascii lower_ascii
           (skipped_turns ++ signal_turn :: [quit_turn]) empty_world)
    = NameError "log_signal".
Proof.
  assert (H3 : is_Some (turn_record Json.loads strip_ascii signal_turn)).
  { eexists. reflexivity. }
  split; [exact skipped_turns_survive |]. split; [reflexivity |].
  split; [exact H3 |].
  exact (script_stops_at_first_signal Json.loads strip_ascii lower_ascii
           skipped_turns signal_turn [quit_turn] empty_world
           skipped_turns_survive eq_refl H3).
Defined.

Lemma main_returns_only_on_quit_witness :
  fst (main Json.loads strip_ascii lower_ascii true
         (sample_turns ++ [quit_turn]) empty_world) = Quit
  ∧ ∃ t, t ∈ sample_turns ++ [quit_turn]
         ∧ is_quit strip_ascii lower_ascii t = true.
Proof.
  assert (H : fst (main Json.loads strip_ascii lower_ascii true
                     (sample_turns ++ [quit_turn]) empty_world) = Quit).
  { vm_compute. reflexivity. }
  split; [exact H |].
  exact (main_returns_only_on_quit Json.loads strip_ascii lower_ascii true
           (sample_turns ++ [quit_turn]) empty_world H).
Defined.

Lemma input_after_quit_unread_witness :
  is_quit strip_ascii lower_ascii quit_turn = true
  ∧ main Json.loads strip_ascii lower_ascii true
      (sample_turns ++ quit_turn :: [high_turn]) empty_world
    = main Json.loads strip_ascii lower_ascii true
        (sample_turns ++ [quit_turn]) empty_world.
Proof.
  split; [reflexivity |].
  apply (input_after_quit_unread Json.loads strip_ascii lower_ascii true
           sample_turns quit_turn [high_turn] empty_world).
  reflexivity.
Defined.

(** What the turns of the example write can be encoded. *)
Lemma sample_turns_clean :
  Forall (λ t, survives Json.loads strip_ascii lower_ascii t
               ∧ encodable_turn Json.loads strip_ascii t) sample_turns.
Proof.
  assert (H := sample_turns_survive).
  unfold sample_turns, skipped_turns in *.
  apply Forall_cons in H as [H1 H]. apply Forall_cons in H as [H2 H].
  apply Forall_cons in H as [H3 _].
  apply Forall_cons. split; [| apply Forall_cons; split;
    [| apply Forall_cons; split; [| by apply Forall_nil]]].
  - split; [exact H1 |]. intros raw d Hr. discriminate Hr.
  - split; [exact H2 |]. intros raw d Hr Hj. injection Hr as <-.
    vm_compute in Hj. discriminate Hj.
  - split; [exact H3 |]. intros raw d Hr Hj _. injection Hr as <-.
    assert (Hd : Json.loads (signal_text "bullish" "0.9" "long" "x")
                 = Returns (PyDict (long_signal (PyFloat float_0_9))))
      by (vm_compute; reflexivity).
    rewrite Hd in Hj. injection Hj as <-. by split.
Qed.

Lemma session_log_witness :
  Forall (λ t, survives Json.loads strip_ascii lower_ascii t
               ∧ encodable_turn Json.loads strip_ascii t) sample_turns
  ∧ is_quit strip_ascii lower_ascii quit_turn = true
  ∧ can_open (files empty_world !! default_filename)
  ∧ ∃ w',
    main_imported Json.loads strip_ascii lower_ascii
      (sample_turns ++ [quit_turn]) empty_world = (Quit, w')
    ∧ files w' !! default_filename
      = log_after (files empty_world !! default_filename)
          (omap (turn_record Json.loads strip_ascii) sample_turns)
    ∧ (∀ other, other ≠ default_filename →
       files w' !! other = files empty_world !! other)
    ∧ fst (main_imported Json.loads strip_ascii lower_ascii sample_turns
             empty_world) = EOFError.
Proof.
  assert (H3 : can_open (files empty_world !! default_filename)).
  { vm_compute. exact I. }
  split; [exact sample_turns_clean |]. split; [reflexivity |].
  split; [exact H3 |].
  exact (session_log Json.loads strip_ascii lower_ascii sample_turns
           quit_turn empty_world sample_turns_clean eq_refl H3).
Defined.

(** The log of the session of the example: the header and the record of
    the one accepted signal, under the stripped headline. *)
Example session_log_example :
  log_after (files empty_world !! default_filename)
    (omap (turn_record Json.loads strip_ascii) sample_turns)
  = Some (RegularFile EmptyString
      [ header;
        [ CellText "2025-01-01T09:02:00";
          CellText "Bank of England raises rates"; CellText "bullish";
          CellText "long"; CellStr (PyFloat float_0_9); CellText "x" ] ]).
Proof. vm_compute. reflexivity. Qed.

Lemma signal_logged_before_interpreter_fails_witness :
  is_quit strip_ascii lower_ascii high_turn = false
  ∧ is_blank strip_ascii high_turn = false
  ∧ reply high_turn
    = Returns (signal_text "bearish" (quoted "high") "short" "y")
  ∧ Json.loads (signal_text "bearish" (quoted "high") "short" "y")
    = Returns (PyDict high_signal)
  ∧ required_keys ⊆ dom high_signal
  ∧ high_signal !! "confidence" = Some (PyStr "high")
  ∧ format_2f (PyStr "high") = Raises ValueError
  ∧ can_open (files empty_world !! default_filename)
  ∧ record_encodable
      (data_record (clock high_turn) (strip_ascii (typed high_turn))
         high_signal) = true
  ∧ fields_printable high_signal = true
  ∧ ∃ w',
    main_imported Json.loads strip_ascii lower_ascii
      (high_turn :: sample_turns) empty_world = (Escaped ValueError, w')
    ∧ files w' !! default_filename
      = log_after (files empty_world !! default_filename)
          [data_record (clock high_turn) (strip_ascii (typed high_turn))
             high_signal].
Proof.
  assert (H5 : required_keys ⊆ dom high_signal).
  { apply (bool_decide_unpack _). vm_compute. exact I. }
  assert (H8 : can_open (files empty_world !! default_filename)).
  { vm_compute. exact I. }
  do 4 (split; [reflexivity |]). split; [exact H5 |].
  do 2 (split; [reflexivity |]). split; [exact H8 |].
  do 2 (split; [reflexivity |]).
  exact (signal_logged_before_interpreter_fails Json.loads strip_ascii
           lower_ascii high_turn sample_turns
           (signal_text "bearish" (quoted "high") "short" "y") high_signal
           (PyStr "high") ValueError empty_world
           eq_refl eq_refl eq_refl eq_refl H5 eq_refl eq_refl H8
           eq_refl eq_refl).
Defined.

Lemma main_escape_causes_witness :
  fst (main_imported Json.loads strip_ascii lower_ascii
         (sample_turns ++ [high_turn]) empty_world) = Escaped ValueError
  ∧ ∃ t, t ∈ sample_turns ++ [high_turn]
         ∧ crash_cause Json.loads strip_ascii lower_ascii t ValueError.
Proof.
  assert (H : fst (main_imported Json.loads strip_ascii lower_ascii
                     (sample_turns ++ [high_turn]) empty_world)
              = Escaped ValueError).
  { vm_compute. reflexivity. }
  split; [exact H |].
  exact (main_escape_causes Json.loads strip_ascii lower_ascii
           (sample_turns ++ [high_turn]) ValueError empty_world H).
Defined.
